(** * DataSage: session-scoped dataset store and natural-language query subsystem

    A shallow embedding of the core of the DataSage backend:

    - [backend/services/sql_service.py]: the [SQLAssistant] (rule-based and
      remote translation of a natural-language request into query text, and the
      execution of query text against an in-memory engine);
    - [backend/database/mongodb.py]: the session metadata collection with its
      in-process fallback map;
    - [backend/services/session_service.py]: sessions, their on-disk snapshots
      and the sample sessions.

    Python strings are modelled as [string] (sequences of 8-bit characters; the
    string operations below are those of Python on ASCII text), dictionaries as
    [gmap], exceptions as an explicit result type, and the mutable world (file
    system, metadata collection, fallback map) as a state that every operation
    threads through. *)

From Stdlib Require Import ZArith NArith List Ascii String Bool Lia DecimalString.
From stdpp Require Import base option list gmap strings.

#[local] Arguments String.append !_ _ / : simpl nomatch.

(** ** Python string operations *)

Module Py.

Definition in_range (lo hi : N) (c : ascii) : bool :=
  let n := N_of_ascii c in (lo <=? n)%N && (n <=? hi)%N.

Definition is_upper : ascii -> bool := in_range 65 90.
Definition is_lower : ascii -> bool := in_range 97 122.
Definition is_digit : ascii -> bool := in_range 48 57.

(** [str.isspace] on ASCII: tab, newline, vertical tab, form feed, carriage
    return, the four separators 28..31 and the space. *)
Definition is_space (c : ascii) : bool :=
  in_range 9 13 c || in_range 28 32 c.

(** The class [\w] of [re] on ASCII text. *)
Definition is_word (c : ascii) : bool :=
  is_upper c || is_lower c || is_digit c || Ascii.eqb c "_"%char.

Definition lower_char (c : ascii) : ascii :=
  if is_upper c then ascii_of_N (N_of_ascii c + 32) else c.

(** [s.lower()] *)
Fixpoint lower (s : string) : string :=
  match s with
  | EmptyString => EmptyString
  | String c s' => String (lower_char c) (lower s')
  end.

Fixpoint lstrip (s : string) : string :=
  match s with
  | EmptyString => EmptyString
  | String c s' => if is_space c then lstrip s' else s
  end.

Fixpoint rstrip (s : string) : string :=
  match s with
  | EmptyString => EmptyString
  | String c s' =>
      match rstrip s' with
      | EmptyString => if is_space c then EmptyString else String c EmptyString
      | r => String c r
      end
  end.

(** [s.strip()] *)
Definition strip (s : string) : string := rstrip (lstrip s).

(** [needle in hay] *)
Fixpoint contains (needle hay : string) : bool :=
  String.prefix needle hay ||
  match hay with
  | EmptyString => false
  | String _ hay' => contains needle hay'
  end.

(** [s.startswith(p)] *)
Definition startswith (p s : string) : bool := String.prefix p s.

(** Truth value of a string: [not s] holds exactly for the empty string. *)
Definition truthy (s : string) : bool :=
  match s with EmptyString => false | _ => true end.

Definition truthy_opt (o : option string) : bool :=
  match o with Some s => truthy s | None => false end.

Fixpoint take_digits (s : string) : string :=
  match s with
  | EmptyString => EmptyString
  | String c s' => if is_digit c then String c (take_digits s') else EmptyString
  end.

(** [re.findall(r'\d+', s)], first element when there is one. *)
Fixpoint first_number (s : string) : option string :=
  match s with
  | EmptyString => None
  | String c s' => if is_digit c then Some (take_digits s) else first_number s'
  end.

(** [re.sub(r'[^\w]', '_', s)] *)
Fixpoint sub_nonword (s : string) : string :=
  match s with
  | EmptyString => EmptyString
  | String c s' => String (if is_word c then c else "_"%char) (sub_nonword s')
  end.

(** [re.sub(r'^```sql\s*', '', s)] *)
Definition strip_fence_open (s : string) : string :=
  if String.prefix "```sql" s
  then lstrip (String.substring 6 (String.length s - 6) s)
  else s.

Fixpoint ends_with_fence (s : string) : bool :=
  match s with
  | EmptyString => false
  | String _ s' => String.eqb s "```" || ends_with_fence s'
  end.

(** [re.sub(r'\s*```$', '', s)] on a stripped string: the closing fence and
    the white space before it go. *)
Definition strip_fence_close (s : string) : string :=
  if ends_with_fence s
  then rstrip (String.substring 0 (String.length s - 3) s)
  else s.

End Py.

(** ** Exceptions and results *)

Inductive pyexc : Type :=
  | KeyError (msg : string)
  | ValueError (msg : string)
  | AttributeError (msg : string)
  | OtherError (msg : string).

Inductive result (A : Type) : Type :=
  | Ok (a : A)
  | Raise (e : pyexc).
Arguments Ok {A} a.
Arguments Raise {A} e.

(** ** Tabular data *)

Module Frame.

(** Column types of a frame, as [str(dtype)] names them. *)
Inductive dtype : Type := Int64 | Float64 | BoolT | Datetime64 | ObjectT.

(** A cell. A float is kept as its decimal literal [digits * 10^-scale]. *)
Inductive value : Type :=
  | VInt (z : Z)
  | VFloat (digits : Z) (scale : nat)
  | VBool (b : bool)
  | VStr (s : string)
  | VNaN.

Record DataFrame : Type := mkFrame {
  columns : list string;
  dtypes : list dtype;
  rows : list (list value)
}.

Definition n_rows (df : DataFrame) : nat := length (rows df).
Definition n_columns (df : DataFrame) : nat := length (columns df).
Definition shape (df : DataFrame) : nat * nat := (n_rows df, n_columns df).

Definition dtype_name (t : dtype) : string :=
  match t with
  | Int64 => "int64"
  | Float64 => "float64"
  | BoolT => "bool"
  | Datetime64 => "datetime64[ns]"
  | ObjectT => "object"
  end.

End Frame.
Export Frame.

#[global] Instance dtype_eq_dec : EqDecision dtype.
Proof. solve_decision. Defined.
#[global] Instance value_eq_dec : EqDecision value.
Proof. solve_decision. Defined.
#[global] Instance DataFrame_eq_dec : EqDecision DataFrame.
Proof. solve_decision. Defined.

(** ** The SQL assistant ([backend/services/sql_service.py]) *)

(** One row of [PRAGMA table_info]: [col[1]] is the name, [col[2]] the type. *)
Record column_info : Type := mkColumn {
  col_name : string;
  col_type : string
}.

(** The in-memory engine instance: the table loaded under [table_name]. *)
Record connection : Type := mkConn {
  conn_table : DataFrame
}.

Record SQLAssistant : Type := mkAssistant {
  conn : option connection;
  table_name : string;
  api_key : string;
  (** [None] until [connect_to_sqlite_memory] has set the attribute *)
  schema : option (list column_info)
}.

(** [SQLAssistant.__init__]; the argument is the value of [GROQ_API_KEY] in the
    environment (empty when unset). *)
Definition SQLAssistant_init (groq_api_key : string) : SQLAssistant :=
  {| conn := None; table_name := "user_data"; api_key := groq_api_key;
     schema := None |}.

Module Templates.

Definition select_default (tn : string) : string :=
  "SELECT * FROM " +:+ tn +:+ " LIMIT 10".
Definition select_avg (col tn : string) : string :=
  "SELECT AVG(" +:+ col +:+ ") as average_" +:+ col +:+ " FROM " +:+ tn.
Definition select_sum (col tn : string) : string :=
  "SELECT SUM(" +:+ col +:+ ") as sum_" +:+ col +:+ " FROM " +:+ tn.
Definition select_group_count (col tn : string) : string :=
  "SELECT " +:+ col +:+ ", COUNT(*) as count FROM " +:+ tn +:+ " GROUP BY " +:+ col.
Definition select_count (tn : string) : string :=
  "SELECT COUNT(*) as count FROM " +:+ tn.
Definition select_max (col tn : string) : string :=
  "SELECT MAX(" +:+ col +:+ ") as max_" +:+ col +:+ " FROM " +:+ tn.
Definition select_min (col tn : string) : string :=
  "SELECT MIN(" +:+ col +:+ ") as min_" +:+ col +:+ " FROM " +:+ tn.
Definition select_group_avg (group_col agg_col tn : string) : string :=
  "SELECT " +:+ group_col +:+ ", AVG(" +:+ agg_col +:+ ") as avg_" +:+ agg_col
    +:+ " FROM " +:+ tn +:+ " GROUP BY " +:+ group_col.
Definition select_where (col op value tn : string) : string :=
  "SELECT * FROM " +:+ tn +:+ " WHERE " +:+ col +:+ " " +:+ op +:+ " " +:+ value.
Definition select_where_not_null (col tn : string) : string :=
  "SELECT * FROM " +:+ tn +:+ " WHERE " +:+ col +:+ " IS NOT NULL".
Definition select_salary_by_department (tn : string) : string :=
  "SELECT department, AVG(salary) as avg_salary FROM " +:+ tn
    +:+ " GROUP BY department ORDER BY avg_salary DESC".

End Templates.

Section Translator.
Import Py Templates.

(** [for col in column_names: if col.lower() in query: ...; break] *)
Definition find_column (column_names : list string) (query : string)
  : option string :=
  List.find (fun col => contains (lower col) query) column_names.

(** The loop of the [group by] branch: the first match becomes [group_col]
    (again, as long as [group_col] is still falsy), the next one [agg_col]. *)
Fixpoint group_scan (column_names : list string) (query : string)
    (group_col : option string) : option string * option string :=
  match column_names with
  | [] => (group_col, None)
  | col :: rest =>
      if contains (lower col) query then
        if negb (truthy_opt group_col)
        then group_scan rest query (Some col)
        else (group_col, Some col)
      else group_scan rest query group_col
  end.

(** [value = 0; numbers = re.findall(r'\d+', query); if numbers: value = numbers[0]] *)
Definition where_value (query : string) : string :=
  match first_number query with Some n => n | None => "0" end.

Definition where_clause (col query tn : string) : string :=
  if contains "greater than" query || contains ">" query then
    select_where col ">" (where_value query) tn
  else if contains "less than" query || contains "<" query then
    select_where col "<" (where_value query) tn
  else if contains "equal" query || contains "=" query then
    select_where col "=" (where_value query) tn
  else select_where_not_null col tn.

(** The keyword branches of [natural_language_to_sql] (the [if]/[elif] chain). *)
Definition keyword_rules (column_names : list string) (query tn : string)
  : string :=
  if contains "average" query || contains "avg" query || contains "mean" query then
    let sql_query :=
      match find_column column_names query with
      | Some col => select_avg col tn
      | None => ""
      end in
    if negb (truthy sql_query) then select_default tn else sql_query
  else if contains "sum" query || contains "total" query then
    match find_column column_names query with
    | Some col => select_sum col tn
    | None => ""
    end
  else if contains "count" query then
    if contains "group by" query || contains "grouped by" query then
      match find_column column_names query with
      | Some col => select_group_count col tn
      | None => ""
      end
    else select_count tn
  else if contains "maximum" query || contains "max" query then
    match find_column column_names query with
    | Some col => select_max col tn
    | None => ""
    end
  else if contains "minimum" query || contains "min" query then
    match find_column column_names query with
    | Some col => select_min col tn
    | None => ""
    end
  else if contains "group by" query || contains "grouped by" query then
    let '(group_col, agg_col) := group_scan column_names query None in
    match group_col, agg_col with
    | Some g, Some a =>
        if truthy g && truthy a then select_group_avg g a tn
        else if truthy g then select_group_count g tn
        else ""
    | Some g, None => if truthy g then select_group_count g tn else ""
    | None, _ => ""
    end
  else if contains "where" query then
    match find_column column_names query with
    | Some col => where_clause col query tn
    | None => ""
    end
  else "".

(** The shortcut for requests about age. *)
Definition age_rules (query tn sql_query : string) : string :=
  if contains "age" query && negb (truthy sql_query) then
    if contains "average age" query || contains "mean age" query then
      "SELECT AVG(age) as average_age FROM " +:+ tn
    else if contains "total age" query || contains "sum of age" query then
      "SELECT SUM(age) as total_age FROM " +:+ tn
    else if contains "maximum age" query || contains "oldest" query then
      "SELECT MAX(age) as max_age FROM " +:+ tn
    else if contains "minimum age" query || contains "youngest" query then
      "SELECT MIN(age) as min_age FROM " +:+ tn
    else sql_query
  else sql_query.

(** The shortcut for requests about salary. *)
Definition salary_rules (query tn sql_query : string) : string :=
  if contains "salary" query && negb (truthy sql_query) then
    if contains "average salary" query || contains "mean salary" query then
      "SELECT AVG(salary) as average_salary FROM " +:+ tn
    else if contains "total salary" query || contains "sum of salary" query then
      "SELECT SUM(salary) as total_salary FROM " +:+ tn
    else if contains "maximum salary" query || contains "highest salary" query then
      "SELECT MAX(salary) as max_salary FROM " +:+ tn
    else if contains "minimum salary" query || contains "lowest salary" query then
      "SELECT MIN(salary) as min_salary FROM " +:+ tn
    else if contains "salary by department" query
            || contains "salary per department" query then
      select_salary_by_department tn
    else sql_query
  else sql_query.

(** [SQLAssistant.natural_language_to_sql]: the rule-based matcher. Reading
    [self.schema] before a connection has set it raises [AttributeError]. *)
Definition natural_language_to_sql (self : SQLAssistant) (nl_query : string)
  : result string :=
  match schema self with
  | None => Raise (AttributeError "'SQLAssistant' object has no attribute 'schema'")
  | Some sch =>
      let query := strip (lower nl_query) in
      let column_names := map col_name sch in
      let tn := table_name self in
      let sql_query := keyword_rules column_names query tn in
      let sql_query := age_rules query tn sql_query in
      let sql_query := salary_rules query tn sql_query in
      let sql_query :=
        if negb (truthy sql_query) then select_default tn else sql_query in
      Ok sql_query
  end.

End Translator.

(** [pd.to_numeric] on one literal: the plain decimal spellings (an optional
    sign, digits, an optional fraction). pandas accepts further spellings;
    nothing below depends on which ones. *)
Module Numeric.
Import Py.

Fixpoint digits_value (s : string) (acc : Z) : option Z :=
  match s with
  | EmptyString => Some acc
  | String c s' =>
      if is_digit c
      then digits_value s' (10 * acc + Z.of_N (N_of_ascii c - 48))%Z
      else None
  end.

Definition parse_nat (s : string) : option Z :=
  match s with
  | EmptyString => None
  | _ => digits_value s 0%Z
  end.

Fixpoint split_dot (s : string) : string * option string :=
  match s with
  | EmptyString => (EmptyString, None)
  | String c s' =>
      if Ascii.eqb c "."%char then (EmptyString, Some s')
      else let '(a, b) := split_dot s' in (String c a, b)
  end.

Definition parse_unsigned (s : string) : option value :=
  match split_dot s with
  | (whole, None) => VInt <$> parse_nat whole
  | (whole, Some frac) =>
      match parse_nat whole, parse_nat frac with
      | Some w, Some f =>
          Some (VFloat (w * 10 ^ Z.of_nat (String.length frac) + f)%Z
                       (String.length frac))
      | _, _ => None
      end
  end.

Definition negate (v : value) : value :=
  match v with
  | VInt z => VInt (- z)
  | VFloat d k => VFloat (- d) k
  | other => other
  end.

Definition to_numeric (s : string) : option value :=
  match strip s with
  | String "-" s' => negate <$> parse_unsigned s'
  | s' => parse_unsigned s'
  end.

Definition is_numeric (v : value) : bool :=
  match v with
  | VInt _ | VFloat _ _ | VBool _ => true
  | VStr s => bool_decide (is_Some (to_numeric s))
  | VNaN => false
  end.

Definition numeric_of (v : value) : value :=
  match v with
  | VStr s => default VNaN (to_numeric s)
  | VBool b => VInt (if b then 1 else 0)
  | other => other
  end.

Definition is_float (v : value) : bool :=
  match v with VFloat _ _ => true | _ => false end.

(** The type pandas gives a column of numbers: [int64] unless a float occurs. *)
Definition numeric_dtype (vs : list value) : dtype :=
  if existsb is_float vs then Float64 else Int64.

End Numeric.

Module Columns.

(** The cells of column [i]. *)
Definition column_values (i : nat) (rs : list (list value)) : list value :=
  map (fun r => default VNaN (r !! i)) rs.

Definition set_cell (i : nat) (f : value -> value) (r : list value) : list value :=
  alter f i r.

End Columns.

Section Executor.
Import Py Numeric Columns.

(** What the embedded engine answers to one statement. *)
Inductive engine_reply : Type :=
  | EngineRows (cols : list string) (rs : list (list value))
  | EngineError (msg : string).

(** The dictionary [execute_query] returns. *)
Inductive query_result : Type :=
  | QueryRows (cols : list string) (records : list (list (string * value)))
              (row_count : nat)
  | QueryError (msg : string).

(** The SQL type pandas' [to_sql] declares for a column. *)
Definition sql_type (t : dtype) : string :=
  match t with
  | Int64 => "INTEGER"
  | Float64 => "REAL"
  | BoolT => "INTEGER"
  | Datetime64 => "TIMESTAMP"
  | ObjectT => "TEXT"
  end.

(** [df_clean]: the copy whose column names have every non-word character
    replaced by an underscore. *)
Definition clean_columns (df : DataFrame) : DataFrame :=
  {| columns := map sub_nonword (columns df);
     dtypes := dtypes df;
     rows := rows df |}.

(** [PRAGMA table_info(user_data)] *)
Definition table_info (df : DataFrame) : list column_info :=
  zip_with (fun n t => mkColumn n (sql_type t)) (columns df) (dtypes df).

(** [connect_to_sqlite_memory]. [loaded] tells whether [to_sql] went through;
    when it raised, the connection stays open and [schema] stays unset. *)
Definition connect_to_sqlite_memory (self : SQLAssistant) (df : DataFrame)
    (loaded : bool) : bool * SQLAssistant :=
  let df_clean := clean_columns df in
  if loaded then
    (true, {| conn := Some (mkConn df_clean);
              table_name := table_name self;
              api_key := api_key self;
              schema := Some (table_info df_clean) |})
  else
    (false, {| conn := Some (mkConn (mkFrame [] [] []));
               table_name := table_name self;
               api_key := api_key self;
               schema := schema self |}).

(** [close_connection] *)
Definition close_connection (self : SQLAssistant) : SQLAssistant :=
  match conn self with
  | Some _ => {| conn := None; table_name := table_name self;
                 api_key := api_key self; schema := schema self |}
  | None => self
  end.

(** [get_schema] *)
Definition get_schema (self : SQLAssistant) : result (option (list column_info)) :=
  match conn self with
  | None => Ok None
  | Some _ =>
      match schema self with
      | None => Raise (AttributeError "'SQLAssistant' object has no attribute 'schema'")
      | Some sch => Ok (Some sch)
      end
  end.

(** [result.to_dict(orient='records')] *)
Definition to_records (cols : list string) (rs : list (list value))
  : list (list (string * value)) :=
  map (fun r => zip cols r) rs.

(** [execute_query]: the engine's failure is caught and returned. *)
Definition execute_query (self : SQLAssistant) (query : option string)
    (reply : engine_reply) : query_result :=
  match conn self with
  | None => QueryError "No database connection"
  | Some _ =>
      match reply with
      | EngineRows cols rs =>
          let records := to_records cols rs in
          QueryRows cols records (length records)
      | EngineError msg => QueryError msg
      end
  end.

(** What the remote service answered: the call raised, or a response came
    with a status code and, when the payload was well formed, the content of
    its first choice. *)
Inductive groq_reply : Type :=
  | GroqRaises (msg : string)
  | GroqResponse (status_code : Z) (content : option string).

Definition returning {A} (r : result A) : result (option A) :=
  match r with Ok a => Ok (Some a) | Raise e => Raise e end.

(** [natural_language_to_sql_with_groq] *)
Definition natural_language_to_sql_with_groq (self : SQLAssistant)
    (nl_query : string) (reply : groq_reply) : result (option string) :=
  let fallback := returning (natural_language_to_sql self nl_query) in
  if negb (truthy (api_key self)) then fallback
  else
    match get_schema self with
    | Raise _ => fallback
    | Ok None | Ok (Some []) => Ok None
    | Ok (Some _) =>
        match reply with
        | GroqRaises _ => fallback
        | GroqResponse status_code content =>
            if (status_code =? 200)%Z then
              match content with
              | Some text =>
                  Ok (Some (strip_fence_close (strip_fence_open (strip text))))
              | None => fallback
              end
            else fallback
        end
    end.

(** The conversion of [object] columns whose every value reads as a number. *)
Definition coerce_column (i : nat) (df : DataFrame) : DataFrame :=
  match dtypes df !! i with
  | Some ObjectT =>
      let vs := column_values i (rows df) in
      if forallb is_numeric vs then
        let vs' := map numeric_of vs in
        {| columns := columns df;
           dtypes := <[i := numeric_dtype vs']> (dtypes df);
           rows := map (set_cell i numeric_of) (rows df) |}
      else df
  | _ => df
  end.

Definition coerce_numeric (df : DataFrame) : DataFrame :=
  foldr coerce_column df (seq 0 (length (columns df))).

(** The dictionary [execute_sql_from_natural_language] returns. *)
Inductive nl_answer : Type :=
  | NLError (msg : string)
  | NLAnswer (natural_language : string) (sql : option string)
             (results : query_result).

Definition exc_message (e : pyexc) : string :=
  match e with
  | KeyError m | ValueError m | AttributeError m | OtherError m => m
  end.

(** [execute_sql_from_natural_language]. Besides the answer, the assistant is
    returned as the call leaves it. [groq_api_key] is the environment's key,
    [loaded], [remote] and [engine] are what the outside world answered. *)
Definition execute_sql_from_natural_language (df : DataFrame)
    (nl_query : string) (use_groq : bool) (groq_api_key : string)
    (loaded : bool) (remote : groq_reply) (engine : engine_reply)
  : nl_answer * SQLAssistant :=
  let df_processed := coerce_numeric df in
  let assistant := SQLAssistant_init groq_api_key in
  let '(success, assistant) :=
    connect_to_sqlite_memory assistant df_processed loaded in
  if negb success then
    (NLError "Failed to create SQL database from dataset", assistant)
  else
    let translated :=
      if use_groq
      then natural_language_to_sql_with_groq assistant nl_query remote
      else returning (natural_language_to_sql assistant nl_query) in
    match translated with
    | Raise e => (NLError (exc_message e), assistant)
    | Ok sql_query =>
        let results := execute_query assistant sql_query engine in
        let assistant := close_connection assistant in
        (NLAnswer nl_query sql_query results, assistant)
    end.

(** The [/api/sql/execute] route once the request has passed the
    missing-parameter check and the session's frame is loaded: status and body. *)
Inductive sql_response : Type :=
  | SqlOk (body : query_result)
  | SqlBadRequest (error : string)
  | SqlServerError (error : string).

Definition execute_sql (df : DataFrame) (query : string) (groq_api_key : string)
    (loaded : bool) (engine : engine_reply) : sql_response * SQLAssistant :=
  let sql_assistant := SQLAssistant_init groq_api_key in
  let '(success, sql_assistant) :=
    connect_to_sqlite_memory sql_assistant df loaded in
  if negb success then
    (SqlServerError "Failed to create in-memory SQL database", sql_assistant)
  else
    let result := execute_query sql_assistant (Some query) engine in
    let sql_assistant := close_connection sql_assistant in
    match result with
    | QueryError msg => (SqlBadRequest msg, sql_assistant)
    | rows => (SqlOk rows, sql_assistant)
    end.

End Executor.

(** ** The engine's view of query text

    The query text goes to SQLite unchanged, so whether it is accepted is
    SQLite's matter. [SqlSyntax] reads the fragment of SQLite's SELECT that the
    matcher's templates live in: words, numbers and punctuation are split as
    SQLite's tokenizer splits them, a keyword is never taken for a name, and a
    statement is [SELECT columns FROM table] followed by optional WHERE, GROUP
    BY, ORDER BY and LIMIT clauses. The reader is cautious: what it accepts,
    SQLite parses. *)

Module SqlSyntax.
Import Py.




Fixpoint all_chars (p : ascii -> bool) (s : string) : bool :=
  match s with
  | EmptyString => true
  | String c s' => p c && all_chars p s'
  end.

























End SqlSyntax.

(** ** The world the store lives in *)

(** A value of a metadata dictionary. [MTime] stands for the ISO text of a
    time stamp. *)
Inductive meta_value : Type :=
  | MNone
  | MBool (b : bool)
  | MInt (n : Z)
  | MStr (s : string)
  | MTime (t : Z)
  | MList (l : list string)
  | MDict (d : list (string * string)).

#[global] Instance meta_value_eq_dec : EqDecision meta_value.
Proof. solve_decision. Defined.

(** Truth value of a metadata value. *)
Definition meta_truthy (v : meta_value) : bool :=
  match v with
  | MNone => false
  | MBool b => b
  | MInt n => negb (n =? 0)%Z
  | MStr s => Py.truthy s
  | MTime _ => true
  | MList l => negb (bool_decide (l = []))
  | MDict d => negb (bool_decide (d = []))
  end.

(** A document of the sessions collection (and an entry of the fallback map). *)
Record session_doc : Type := mkDoc {
  doc_metadata : gmap string meta_value;
  created_at : Z;
  updated_at : Z;
  expires_at : Z
}.

(** A document of the datasets collection, found by file name and session.
    The byte size and the extension recorded with it are left out. *)
Record dataset_doc : Type := mkDataset {
  ds_rows : nat;
  ds_columns : nat;
  ds_file_path : string;
  ds_csv_path : string
}.

Record mongo_db : Type := mkDb {
  sessions_collection : gmap string session_doc;
  datasets_collection : gmap (string * option string) dataset_doc
}.

(** What a file holds: the pickle of a frame, delimited text (a header line
    and the literal fields of every record), or bytes that are neither. *)
Inductive file : Type :=
  | PickleOf (df : DataFrame)
  | CsvOf (header : list string) (records : list (list string))
  | Corrupt.

Inductive tier : Type := Durable | Fallback.

(** What an operation did to the persistent state, in the order it did it. *)
Inductive event : Type :=
  | EvMakedirs (path : string)
  | EvFileWrite (path : string) (content : file)
  | EvFileRead (path : string)
  | EvRenewed (session_id : string) (expires : Z)
  | EvMetadataSaved (where_ : tier) (session_id : string)
                    (metadata : gmap string meta_value)
  | EvMetadataDropped (session_id : string)
  | EvDatasetSaved (session_id : string).

Record World : Type := mkWorld {
  files : gmap string file;
  dirs : gset string;
  (** [None]: the database server cannot be reached, every call on a
      collection raises *)
  mongo : option mongo_db;
  (** [None]: the global [IN_MEMORY_SESSIONS] is not defined *)
  IN_MEMORY_SESSIONS : option (gmap string session_doc);
  events : list event
}.

(** Operations: state passing, with Python's exceptions as results. *)
Definition M (A : Type) : Type := World -> result A * World.

Definition ret {A} (a : A) : M A := fun w => (Ok a, w).
Definition raise {A} (e : pyexc) : M A := fun w => (Raise e, w).
Definition bind {A B} (m : M A) (k : A -> M B) : M B :=
  fun w => match m w with
           | (Ok a, w') => k a w'
           | (Raise e, w') => (Raise e, w')
           end.
(** [try: m except Exception: h] *)
Definition try_except {A} (m : M A) (h : pyexc -> M A) : M A :=
  fun w => match m w with
           | (Ok a, w') => (Ok a, w')
           | (Raise e, w') => h e w'
           end.
Definition get_world : M World := fun w => (Ok w, w).
Definition log (e : event) : M unit :=
  fun w => (Ok tt, mkWorld (files w) (dirs w) (mongo w) (IN_MEMORY_SESSIONS w)
                           (events w ++ [e])).

Declare Scope py_scope.
Delimit Scope py_scope with py.
Notation "x <- m ;; k" := (bind m (fun x => k))
  (at level 100, m at next level, right associativity) : py_scope.
Notation "m ;;; k" := (bind m (fun _ => k))
  (at level 100, right associativity) : py_scope.
#[local] Open Scope py_scope.

Module Fs.

Definition ends_with_slash (s : string) : bool :=
  match String.get (String.length s - 1) s with
  | Some c => Ascii.eqb c "/"
  | None => false
  end.

(** [os.path.join(a, b)] *)
Definition path_join (a b : string) : string :=
  if Py.startswith "/" b then b
  else if negb (Py.truthy a) || ends_with_slash a then a +:+ b
  else a +:+ "/" +:+ b.

(** [os.path.exists(path)] *)
Definition path_exists (path : string) (w : World) : bool :=
  bool_decide (is_Some (files w !! path)) || bool_decide (path ∈ dirs w).

(** [os.makedirs(path, exist_ok=True)] *)
Definition makedirs (path : string) : M unit :=
  fun w => (Ok tt, mkWorld (files w) ({[path]} ∪ dirs w) (mongo w)
                           (IN_MEMORY_SESSIONS w) (events w ++ [EvMakedirs path])).

Definition write_file (path : string) (content : file) : M unit :=
  fun w => (Ok tt, mkWorld (<[path := content]> (files w)) (dirs w) (mongo w)
                           (IN_MEMORY_SESSIONS w)
                           (events w ++ [EvFileWrite path content])).

Definition read_file (path : string) : M (option file) :=
  fun w => (Ok (files w !! path),
            mkWorld (files w) (dirs w) (mongo w) (IN_MEMORY_SESSIONS w)
                    (events w ++ [EvFileRead path])).

End Fs.

(** ** The two on-disk forms of a frame *)

Module Codec.
Import Py Numeric Columns Fs.

Definition show_Z (z : Z) : string := NilZero.string_of_int (Z.to_int z).

Fixpoint zeros (n : nat) : string :=
  match n with O => EmptyString | S n' => String "0" (zeros n') end.

(** The decimal text of [digits * 10^-scale]. *)
Definition show_float (digits : Z) (scale : nat) : string :=
  let a := Z.abs digits in
  let unit := (10 ^ Z.of_nat scale)%Z in
  let frac := show_Z (a mod unit) in
  (if (digits <? 0)%Z then "-" else "") +:+ show_Z (a / unit) +:+ "."
    +:+ zeros (scale - String.length frac) +:+ frac.

(** The field [to_csv] writes for a cell. *)
Definition show_value (v : value) : string :=
  match v with
  | VInt z => show_Z z
  | VFloat d k => show_float d k
  | VBool b => if b then "True" else "False"
  | VStr s => s
  | VNaN => EmptyString
  end.

(** [df.to_csv(path, index=False)]: what the file then holds. *)
Definition to_csv (df : DataFrame) : file :=
  CsvOf (columns df) (map (map show_value) (rows df)).

Definition literal_is_numeric (s : string) : bool :=
  negb (truthy s) || bool_decide (is_Some (to_numeric s)).

Definition literal_is_bool (s : string) : bool :=
  String.eqb s "True" || String.eqb s "False".

(** The type [read_csv] infers for a column from its literal fields: numbers
    when every field reads as one (an empty field is a missing value and makes
    the column floating), booleans, text otherwise. *)
Definition infer_dtype (fields : list string) : dtype :=
  if forallb literal_is_numeric fields && existsb truthy fields then
    if forallb truthy fields
       && forallb (fun s => negb (is_float (default VNaN (to_numeric s)))) fields
    then Int64 else Float64
  else if forallb literal_is_bool fields && existsb truthy fields then BoolT
  else ObjectT.

Definition read_field (t : dtype) (s : string) : value :=
  match s, t with
  | EmptyString, _ => VNaN
  | _, Int64 => default VNaN (to_numeric s)
  | _, Float64 =>
      match to_numeric s with
      | Some (VInt z) => VFloat (z * 10) 1
      | Some v => v
      | None => VNaN
      end
  | _, BoolT => VBool (String.eqb s "True")
  | _, _ => VStr s
  end.

Definition field_column (i : nat) (records : list (list string)) : list string :=
  map (fun r => default EmptyString (r !! i)) records.

(** [pd.read_csv] on delimited text. *)
Definition parse_csv (header : list string) (records : list (list string))
  : DataFrame :=
  let types :=
    map (fun i => infer_dtype (field_column i records)) (seq 0 (length header)) in
  {| columns := header;
     dtypes := types;
     rows := map (fun r => zip_with read_field types r) records |}.

(** [with open(path, 'wb') as f: pickle.dump(df, f)] *)
Definition pickle_dump (df : DataFrame) (path : string) : M unit :=
  write_file path (PickleOf df).

(** [with open(path, 'rb') as f: pickle.load(f)] *)
Definition pickle_load (path : string) : M DataFrame :=
  content <- read_file path ;;
  match content with
  | Some (PickleOf df) => ret df
  | Some _ => raise (OtherError "UnpicklingError")
  | None => raise (OtherError "FileNotFoundError")
  end.

(** [pd.read_csv(path)] *)
Definition read_csv (path : string) : M DataFrame :=
  content <- read_file path ;;
  match content with
  | Some (CsvOf header records) => ret (parse_csv header records)
  | Some _ => raise (OtherError "ParserError")
  | None => raise (OtherError "FileNotFoundError")
  end.

End Codec.

(** ** The metadata store ([backend/database/mongodb.py]) *)

Module Mongo.

(** [timedelta(days=7)], in microseconds *)
Definition seven_days : Z := 7 * 24 * 60 * 60 * 1000000.

Definition set_sessions (coll : gmap string session_doc) (w : World) : World :=
  match mongo w with
  | Some db =>
      mkWorld (files w) (dirs w) (Some (mkDb coll (datasets_collection db)))
              (IN_MEMORY_SESSIONS w) (events w)
  | None => w
  end.

Definition set_memory (mem : gmap string session_doc) (w : World) : World :=
  mkWorld (files w) (dirs w) (mongo w) (Some mem) (events w).

Definition add_event (e : event) (w : World) : World :=
  mkWorld (files w) (dirs w) (mongo w) (IN_MEMORY_SESSIONS w) (events w ++ [e]).

(** [save_session_metadata]; [now] is the clock's reading during the call. *)
Definition save_session_metadata (now : Z) (session_id : string)
    (metadata : gmap string meta_value) : M bool :=
  fun w =>
    match mongo w with
    | Some db =>
        let coll := sessions_collection db in
        let expires := (now + seven_days)%Z in
        let doc :=
          match coll !! session_id with
          | Some existing => mkDoc metadata (created_at existing) now expires
          | None => mkDoc metadata now now expires
          end in
        (Ok true,
         add_event (EvMetadataSaved Durable session_id metadata)
                   (set_sessions (<[session_id := doc]> coll) w))
    | None =>
        match IN_MEMORY_SESSIONS w with
        | Some mem =>
            (Ok true,
             add_event (EvMetadataSaved Fallback session_id metadata)
               (set_memory
                  (<[session_id := mkDoc metadata now now (now + seven_days)]> mem)
                  w))
        | None => (Ok false, add_event (EvMetadataDropped session_id) w)
        end
    end.

(** The metadata of the sample session as [get_session_metadata] creates it. *)
Definition sample_stub : gmap string meta_value :=
  {[ "filename" := MStr "employee_data.csv";
     "has_data" := MBool true;
     "is_sample" := MBool true ]}.

(** The lookup in the fallback map. *)
Definition memory_lookup (session_id : string) (w : World)
  : option (gmap string meta_value) :=
  mem ← IN_MEMORY_SESSIONS w; doc_metadata <$> mem !! session_id.

(** [get_session_metadata]: [None] when the session is not found. *)
Definition get_session_metadata (now : Z) (session_id : string)
  : M (option (gmap string meta_value)) :=
  fun w =>
    match mongo w with
    | Some db =>
        let coll := sessions_collection db in
        match coll !! session_id with
        | None =>
            if Py.startswith "sample-" session_id then
              (_ <- save_session_metadata now session_id sample_stub ;;
               ret (Some sample_stub)) w
            else (Ok (memory_lookup session_id w), w)
        | Some session =>
            let renewed :=
              mkDoc (doc_metadata session) (created_at session) now
                    (now + seven_days) in
            (Ok (Some (doc_metadata session)),
             add_event (EvRenewed session_id (now + seven_days))
                       (set_sessions (<[session_id := renewed]> coll) w))
        end
    | None => (Ok (memory_lookup session_id w), w)
    end.

(** [save_dataset] *)
Definition save_dataset (session_id : string) (filename : option string)
    (info : dataset_doc) : M unit :=
  fun w =>
    match mongo w with
    | Some db =>
        (Ok tt,
         mkWorld (files w) (dirs w)
           (Some (mkDb (sessions_collection db)
                       (<[(session_id, filename) := info]> (datasets_collection db))))
           (IN_MEMORY_SESSIONS w) (events w ++ [EvDatasetSaved session_id]))
    | None => (Ok tt, w)
    end.

(** The TTL index on [expires_at] with [expireAfterSeconds = 7 days]: the
    server's background task removes a document once seven days have passed
    since its [expires_at]. It runs on its own, not as part of any call. *)
Definition ttl_sweep (now : Z) (w : World) : World :=
  match mongo w with
  | Some db =>
      set_sessions
        (filter (fun kv => (now < expires_at kv.2 + seven_days)%Z)
                (sessions_collection db)) w
  | None => w
  end.

(** The [expires_at] the durable store holds for a session. *)
Definition persisted_expires (session_id : string) (w : World) : option Z :=
  db ← mongo w; expires_at <$> sessions_collection db !! session_id.

(** The metadata the stores hold for a session: the durable collection's
    when it can be reached and has the session, the fallback map's otherwise. *)
Definition persisted_metadata (session_id : string) (w : World)
  : option (gmap string meta_value) :=
  match mongo w with
  | Some db =>
      match sessions_collection db !! session_id with
      | Some session => Some (doc_metadata session)
      | None => memory_lookup session_id w
      end
  | None => memory_lookup session_id w
  end.

(** The [has_data] flag the stores hold for a session. *)
Definition persisted_has_data (session_id : string) (w : World) : bool :=
  match persisted_metadata session_id w with
  | Some md => meta_truthy (default (MBool false) (md !! "has_data"))
  | None => false
  end.

End Mongo.

(** ** Sessions ([backend/services/session_service.py]) *)

(** [pd.DataFrame(SAMPLE_DATA)] *)
Definition SAMPLE_DATA : DataFrame :=
  {| columns :=
       [ "age"; "salary"; "experience"; "education"; "department";
         "performance_score"; "attendance"; "projects_completed";
         "satisfaction_level"; "last_evaluation" ];
     dtypes :=
       [ Int64; Int64; Int64; ObjectT; ObjectT; Int64; Int64; Int64;
         Float64; Float64 ];
     rows :=
       [ [ VInt 28; VInt 72000; VInt 5; VStr "Masters"; VStr "Engineering";
           VInt 85; VInt 92; VInt 7; VFloat 42 1; VFloat 45 1 ];
         [ VInt 34; VInt 86000; VInt 10; VStr "PhD"; VStr "Research";
           VInt 92; VInt 95; VInt 12; VFloat 47 1; VFloat 48 1 ];
         [ VInt 45; VInt 115000; VInt 18; VStr "Masters"; VStr "Management";
           VInt 88; VInt 90; VInt 9; VFloat 40 1; VFloat 43 1 ];
         [ VInt 31; VInt 65000; VInt 7; VStr "Bachelors"; VStr "Marketing";
           VInt 76; VInt 85; VInt 5; VFloat 38 1; VFloat 39 1 ];
         [ VInt 24; VInt 55000; VInt 2; VStr "Bachelors"; VStr "Sales";
           VInt 72; VInt 88; VInt 4; VFloat 35 1; VFloat 37 1 ] ] |}.

(** A value of the dictionary [get_session] returns. *)
Inductive info_value : Type :=
  | IVal (v : meta_value)
  | IFrame (df : DataFrame)
  | IMetadata (md : gmap string meta_value).

Section Sessions.
Import Py Fs Codec Mongo.

(** The directory the snapshots live under ([settings.SESSION_FOLDER]). *)
Variable SESSION_FOLDER : string.

Definition session_dir_of (session_id : string) : string :=
  path_join SESSION_FOLDER session_id.
Definition pickle_path_of (session_id : string) : string :=
  path_join (session_dir_of session_id) "data.pkl".
Definition csv_path_of (session_id : string) : string :=
  path_join (session_dir_of session_id) "data.csv".

(** [not metadata] *)
Definition no_metadata (metadata : option (gmap string meta_value)) : bool :=
  match metadata with
  | None => true
  | Some md => bool_decide (md = ∅)
  end.

(** [{col: str(dtype) for col, dtype in df.dtypes.items()}] *)
Definition dtypes_dict (df : DataFrame) : meta_value :=
  MDict (zip (columns df) (map dtype_name (dtypes df))).

(** The description of a frame that goes into the metadata. *)
Definition frame_metadata (df : DataFrame) (df_path csv_path : string)
  : gmap string meta_value :=
  {[ "rows" := MInt (Z.of_nat (n_rows df));
     "columns" := MInt (Z.of_nat (n_columns df));
     "column_names" := MList (columns df);
     "dtypes" := dtypes_dict df;
     "has_data" := MBool true;
     "file_path" := MStr df_path;
     "csv_path" := MStr csv_path ]}.

Definition sample_metadata (now : Z) (df_path csv_path : string)
  : gmap string meta_value :=
  <["filename" := MStr "employee_data.csv"]>
    (<["is_sample" := MBool true]>
       (<["created_at" := MTime now]>
          (<["expires_at" := MTime (now + seven_days)]>
             (frame_metadata SAMPLE_DATA df_path csv_path)))).

(** [create_session]; [fresh_id] is the identifier [uuid.uuid4()] drew. *)
Definition create_session (now : Z) (fresh_id : string) : M string :=
  makedirs (session_dir_of fresh_id) ;;;
  let metadata : gmap string meta_value :=
    {[ "created_at" := MTime now;
       "expires_at" := MTime (now + seven_days);
       "has_data" := MBool false ]} in
  _ <- save_session_metadata now fresh_id metadata ;;
  ret fresh_id.

(** [handle_sample_session] *)
Definition handle_sample_session (now : Z) (session_id : string)
  : M (gmap string info_value) :=
  let session_dir := session_dir_of session_id in
  w <- get_world ;;
  if negb (path_exists session_dir w) then
    makedirs session_dir ;;;
    let df := SAMPLE_DATA in
    let df_path := path_join session_dir "data.pkl" in
    pickle_dump df df_path ;;;
    let csv_path := path_join session_dir "data.csv" in
    write_file csv_path (to_csv df) ;;;
    let metadata := sample_metadata now df_path csv_path in
    _ <- save_session_metadata now session_id metadata ;;
    ret ({[ "id" := IVal (MStr session_id);
            "created_at" := IVal (MTime now);
            "expires_at" := IVal (MTime (now + seven_days));
            "has_data" := IVal (MBool true);
            "df" := IFrame df;
            "metadata" := IMetadata metadata ]} : gmap string info_value)
  else
    found <- get_session_metadata now session_id ;;
    metadata <-
      (if no_metadata found then
         let metadata :=
           sample_metadata now (path_join session_dir "data.pkl")
                           (path_join session_dir "data.csv") in
         _ <- save_session_metadata now session_id metadata ;;
         ret metadata
       else ret (default ∅ found)) ;;
    ret ({[ "id" := IVal (MStr session_id);
            "created_at" := IVal (default (MTime now) (metadata !! "created_at"));
            "expires_at" :=
              IVal (default (MTime (now + seven_days)) (metadata !! "expires_at"));
            "has_data" := IVal (MBool true);
            "metadata" := IMetadata metadata ]} : gmap string info_value).

(** [get_session] *)
Definition get_session (now : Z) (session_id : string)
  : M (gmap string info_value) :=
  if truthy session_id && startswith "sample-" session_id then
    handle_sample_session now session_id
  else
    found <- get_session_metadata now session_id ;;
    if no_metadata found then
      raise (KeyError ("Session " +:+ session_id +:+ " not found or expired"))
    else
      let metadata := default ∅ found in
      let session_dir := session_dir_of session_id in
      w <- get_world ;;
      (if negb (path_exists session_dir w) then makedirs session_dir else ret tt) ;;;
      let session_info : gmap string info_value :=
        {[ "id" := IVal (MStr session_id);
           "created_at" := IVal (default (MTime now) (metadata !! "created_at"));
           "expires_at" :=
             IVal (default (MTime (now + seven_days)) (metadata !! "expires_at"));
           "has_data" := IVal (default (MBool false) (metadata !! "has_data")) ]} in
      ret ((IVal <$> metadata) ∪ session_info).

(** The snapshot writes shared by [add_session_data] and
    [update_session_data]: the pickle first, then the text form of the same
    frame. The paths are returned. *)
Definition write_snapshots (session_id : string) (df : DataFrame)
  : M (string * string) :=
  let session_dir := session_dir_of session_id in
  makedirs session_dir ;;;
  let df_path := path_join session_dir "data.pkl" in
  pickle_dump df df_path ;;;
  let csv_path := path_join session_dir "data.csv" in
  write_file csv_path (to_csv df) ;;;
  ret (df_path, csv_path).

Definition filename_value (filename : option string) : meta_value :=
  match filename with Some f => MStr f | None => MNone end.

(** [add_session_data] *)
Definition add_session_data (now : Z) (session_id : string) (df : DataFrame)
    (filename : option string) : M string :=
  if truthy session_id && startswith "sample-" session_id then
    _ <- handle_sample_session now session_id ;;
    ret session_id
  else
    found <- get_session_metadata now session_id ;;
    if no_metadata found then
      raise (KeyError ("Session " +:+ session_id +:+ " not found or expired"))
    else
      let metadata := default ∅ found in
      paths <- write_snapshots session_id df ;;
      let '(df_path, csv_path) := paths in
      let updated_metadata :=
        <["filename" := filename_value filename]>
          (frame_metadata df df_path csv_path) in
      let metadata := updated_metadata ∪ metadata in
      _ <- save_session_metadata now session_id metadata ;;
      save_dataset session_id filename
        (mkDataset (n_rows df) (n_columns df) df_path csv_path) ;;;
      ret session_id.

(** [update_session_data] *)
Definition update_session_data (now : Z) (session_id : string) (df : DataFrame)
  : M string :=
  found <- get_session_metadata now session_id ;;
  if no_metadata found then
    raise (ValueError ("Session " +:+ session_id +:+ " not found or expired"))
  else
    let metadata := default ∅ found in
    paths <- write_snapshots session_id df ;;
    let '(df_path, csv_path) := paths in
    let updated_metadata :=
      <["updated_at" := MTime now]> (frame_metadata df df_path csv_path) in
    let metadata := updated_metadata ∪ metadata in
    _ <- save_session_metadata now session_id metadata ;;
    ret session_id.

(** [metadata.get('file_path')] when it is a usable path. *)
Definition recorded_path (metadata : gmap string meta_value) : option string :=
  match metadata !! "file_path" with
  | Some (MStr p) => if truthy p then Some p else None
  | _ => None
  end.

(** [get_session_data] *)
Definition get_session_data (now : Z) (session_id : string) : M DataFrame :=
  if truthy session_id && startswith "sample-" session_id then
    let session_dir := session_dir_of session_id in
    let df_path := path_join session_dir "data.pkl" in
    w <- get_world ;;
    if negb (path_exists df_path w) then
      session <- handle_sample_session now session_id ;;
      match session !! "df" with
      | Some (IFrame df) => ret df
      | _ =>
          let df := SAMPLE_DATA in
          makedirs session_dir ;;;
          pickle_dump df df_path ;;;
          ret df
      end
    else
      try_except (pickle_load df_path) (fun _ => ret SAMPLE_DATA)
  else
    found <- get_session_metadata now session_id ;;
    if no_metadata found then
      raise (KeyError ("Session " +:+ session_id +:+ " not found or expired"))
    else
      let metadata := default ∅ found in
      if negb (meta_truthy (default (MBool false) (metadata !! "has_data"))) then
        raise (ValueError ("No data associated with session " +:+ session_id))
      else
        w <- get_world ;;
        let recorded := recorded_path metadata in
        let usable :=
          match recorded with
          | Some p => path_exists p w
          | None => false
          end in
        let df_path :=
          if usable then default EmptyString recorded
          else pickle_path_of session_id in
        if negb usable && negb (path_exists df_path w) then
          raise (ValueError ("Data file not found for session " +:+ session_id))
        else
          try_except (pickle_load df_path)
            (fun e =>
               let csv_path := csv_path_of session_id in
               w' <- get_world ;;
               if path_exists csv_path w' then read_csv csv_path
               else raise (ValueError ("Failed to load data for session "
                                       +:+ session_id +:+ ": " +:+ exc_message e))).


(** The metadata [add_session_data] saves. *)
Definition attached_metadata (sid : string) (df : DataFrame)
    (filename : option string) (md : gmap string meta_value)
  : gmap string meta_value :=
  <["filename" := filename_value filename]>
    (frame_metadata df (pickle_path_of sid)
                    (csv_path_of sid)) ∪ md.

(** The metadata [update_session_data] saves. *)
Definition updated_metadata (now : Z) (sid : string) (df : DataFrame)
    (md : gmap string meta_value) : gmap string meta_value :=
  <["updated_at" := MTime now]>
    (frame_metadata df (pickle_path_of sid)
                    (csv_path_of sid)) ∪ md.

(** The world after the snapshot writes of a session. *)
Definition with_snapshots (sid : string) (df : DataFrame) (w : World) : World :=
  (write_snapshots sid df w).2.

(** The file [get_session_data] unpickles: the recorded path when it exists,
    the default path otherwise; [None] when neither exists. *)
Definition binary_path (sid : string) (md : gmap string meta_value) (w : World)
  : option string :=
  match recorded_path md with
  | Some p =>
      if path_exists p w then Some p
      else if path_exists (pickle_path_of sid) w
           then Some (pickle_path_of sid) else None
  | None =>
      if path_exists (pickle_path_of sid) w
      then Some (pickle_path_of sid) else None
  end.

End Sessions.

(** ** Vocabulary of the statements *)

Definition succeeded {A} (r : result A) : bool :=
  match r with Ok _ => true | Raise _ => false end.



(** The texts of the age and salary shortcuts. *)
Definition shortcut_texts (tn : string) : list string :=
  [ "SELECT AVG(age) as average_age FROM " +:+ tn;
    "SELECT SUM(age) as total_age FROM " +:+ tn;
    "SELECT MAX(age) as max_age FROM " +:+ tn;
    "SELECT MIN(age) as min_age FROM " +:+ tn;
    "SELECT AVG(salary) as average_salary FROM " +:+ tn;
    "SELECT SUM(salary) as total_salary FROM " +:+ tn;
    "SELECT MAX(salary) as max_salary FROM " +:+ tn;
    "SELECT MIN(salary) as min_salary FROM " +:+ tn;
    Templates.select_salary_by_department tn ].

(** The shapes of the matcher's output: a template with column names of the
    schema put in as they are, a shortcut text, or the default. *)
Inductive matcher_output (cols : list string) (tn : string) : string -> Prop :=
  | out_default : matcher_output cols tn (Templates.select_default tn)
  | out_count : matcher_output cols tn (Templates.select_count tn)
  | out_avg col :
      In col cols -> matcher_output cols tn (Templates.select_avg col tn)
  | out_sum col :
      In col cols -> matcher_output cols tn (Templates.select_sum col tn)
  | out_max col :
      In col cols -> matcher_output cols tn (Templates.select_max col tn)
  | out_min col :
      In col cols -> matcher_output cols tn (Templates.select_min col tn)
  | out_group_count col :
      In col cols -> matcher_output cols tn (Templates.select_group_count col tn)
  | out_group_avg g a :
      In g cols -> In a cols ->
      matcher_output cols tn (Templates.select_group_avg g a tn)
  | out_where col op v :
      In col cols -> In op [">"; "<"; "="] ->
      SqlSyntax.all_chars Py.is_digit v = true -> Py.truthy v = true ->
      matcher_output cols tn (Templates.select_where col op v tn)
  | out_where_not_null col :
      In col cols -> matcher_output cols tn (Templates.select_where_not_null col tn)
  | out_shortcut text :
      In text (shortcut_texts tn) -> matcher_output cols tn text.

(** The events that touch a session's snapshot files or its metadata. *)
Definition is_file_event (e : event) : bool :=
  match e with
  | EvFileWrite _ _ | EvFileRead _ => true
  | _ => false
  end.

Definition is_metadata_event (e : event) : bool :=
  match e with
  | EvMetadataSaved _ _ _ | EvMetadataDropped _ => true
  | _ => false
  end.

Definition persist_events (es : list event) : list event :=
  List.filter (fun e => is_file_event e || is_metadata_event e) es.

(** What an operation added to the log. *)
Definition new_events (before after : World) : list event :=
  drop (length (events before)) (events after).

(** The order the snapshot discipline asks of a log: nothing at all, or the
    pickle of a frame, then the text form of the same frame, and only then
    what is done to the metadata. *)
Definition snapshot_then_metadata (es : list event) : Prop :=
  exists writes metas,
    es = writes ++ metas
    /\ (writes = []
        \/ exists df_path csv_path frame,
             writes = [EvFileWrite df_path (PickleOf frame);
                       EvFileWrite csv_path (Codec.to_csv frame)])
    /\ forallb is_metadata_event metas = true.

(** The matcher's intermediate result: still empty, or already one of the
    output shapes. *)
Definition blank_or_output (cols : list string) (tn text : string) : Prop :=
  text = EmptyString \/ matcher_output cols tn text.


(** The assistant as the pipeline has it after loading the sample dataset. *)
Definition sample_assistant : SQLAssistant :=
  (connect_to_sqlite_memory (SQLAssistant_init "") SAMPLE_DATA true).2.

(** [has_data] as [get_session_data] reads it. *)
Definition has_data_flag (md : gmap string meta_value) : bool :=
  meta_truthy (default (MBool false) (md !! "has_data")).

(** [w'] differs from [w] only in the metadata stores and the log, and the
    log grew by [added]. *)
Definition store_step (w w' : World) (added : list event) : Prop :=
  files w' = files w /\ dirs w' = dirs w
  /\ events w' = events w ++ added.

(** ** Worlds the statements are tried on *)

Definition empty_world : World := mkWorld ∅ ∅ (Some (mkDb ∅ ∅)) None [].

(** A session created at time 0 under the id "u1". *)
Definition created_world : World := (create_session "sessions" 0 "u1" empty_world).2.

Definition one_day : Z := 24 * 60 * 60 * 1000000.

Definition demo_frame : DataFrame :=
  mkFrame ["name"; "n"] [ObjectT; Int64] [[VStr "Ada"; VInt 1]].

(** The session "u1" one day later, with [demo_frame] attached. *)
Definition attached_world : World :=
  (add_session_data "sessions" one_day "u1" demo_frame (Some "demo.csv")
     created_world).2.

Definition with_files (fs : gmap string file) (w : World) : World :=
  mkWorld fs (dirs w) (mongo w) (IN_MEMORY_SESSIONS w) (events w).

(** The same, with a binary snapshot that no longer unpickles. *)
Definition corrupt_world : World :=
  with_files (<["sessions/u1/data.pkl" := Corrupt]> (files attached_world))
             attached_world.

(** The same, with the binary snapshot gone and the text snapshot in place. *)
Definition absent_world : World :=
  with_files (delete "sessions/u1/data.pkl" (files attached_world)) attached_world.

(** A world in which only the directory of "sample-1" exists. *)
Definition sample_dir_world : World :=
  mkWorld ∅ {["sessions/sample-1"]} (Some (mkDb ∅ ∅)) None [].

(** A frame whose text column reads as numbers. *)
Definition codes_frame : DataFrame := mkFrame ["code"] [ObjectT] [[VStr "007"]].

(** * The rest of the services and the routes *)

(** ** Further string operations *)

Module PyStr.

(** [s.endswith(suffix)] *)
Fixpoint endswith (suffix s : string) : bool :=
  String.eqb s suffix ||
  match s with
  | EmptyString => false
  | String _ s' => endswith suffix s'
  end.

(** [s.rsplit('.', 1)[1]]: what follows the last dot of [s]; [None] when [s]
    has no dot (the list [rsplit] returns then has one element only). *)
Fixpoint after_last_dot (s : string) : option string :=
  match s with
  | EmptyString => None
  | String c s' =>
      match after_last_dot s' with
      | Some ext => Some ext
      | None => if Ascii.eqb c "."%char then Some s' else None
      end
  end.

(** [str(e)]: the message, which for a [KeyError] comes in quotes. *)
Definition exc_str (e : pyexc) : string :=
  match e with
  | KeyError m => "'" +:+ m +:+ "'"
  | ValueError m | AttributeError m | OtherError m => m
  end.

End PyStr.

(** ** Removing files and directories *)

Module Disk.
Import Fs.



(** [os.remove(path)] *)
Definition remove (path : string) : M unit :=
  fun w =>
    match files w !! path with
    | Some _ =>
        (Ok tt, mkWorld (delete path (files w)) (dirs w) (mongo w)
                        (IN_MEMORY_SESSIONS w) (events w))
    | None => (Raise (OtherError "FileNotFoundError"), w)
    end.

End Disk.

(** ** The other operations of [backend/services/session_service.py] *)

Module Service.
Import Py Fs Codec Disk.

Section Folders.

(** [settings.SESSION_FOLDER] and [settings.TEMP_FOLDER] *)
Variable SESSION_FOLDER : string.
Variable TEMP_FOLDER : string.

(** [get_session_metadata] of the service: the store's lookup
    ([get_mongo_session_metadata]), raising when it finds nothing. *)
Definition get_session_metadata (now : Z) (session_id : string)
  : M (gmap string meta_value) :=
  found <- Mongo.get_session_metadata now session_id ;;
  if no_metadata found then
    raise (ValueError ("Session " +:+ session_id +:+ " not found or expired"))
  else ret (default ∅ found).



(** [get_all_sessions] *)
Definition get_all_sessions : list (gmap string info_value) := [].



End Folders.

End Service.

(** ** The natural-language route ([backend/routes/sql_routes.py]) *)

Module SqlRoutes.





End SqlRoutes.

(** ** The dataset and session routes ([backend/routes/dataset_routes.py]) *)

Module DatasetRoutes.
Import Py PyStr Fs Codec Disk.

(** [settings.ALLOWED_EXTENSIONS] *)
Definition ALLOWED_EXTENSIONS : gset string := {[ "csv"; "xls"; "xlsx" ]}.

(** [allowed_file] *)
Definition allowed_file (filename : string) : bool :=
  contains "." filename &&
  match after_last_dot filename with
  | Some ext => bool_decide (lower ext ∈ ALLOWED_EXTENSIONS)
  | None => false
  end.

(** The answer of [/api/dataset/upload]; a 500 answer carries
    ["Error processing file: " + str(e)]. *)
Inductive upload_response : Type :=
  | UploadOk (session_id filename : string) (rows columns column_names : meta_value)
  | UploadBadRequest (error : string)
  | UploadServerError (error : string).

(** The answer of [GET /api/sessions/<id>]. *)
Inductive session_response : Type :=
  | SessionOk (session : gmap string info_value)
  | SessionNotFound (error : string)
  | SessionServerError (error : string).


(** Whether [jsonify] can write a value of a session dictionary: a frame is
    not JSON serializable. *)
Definition jsonable (v : info_value) : bool :=
  match v with IFrame _ => false | _ => true end.

Section Folders.

(** [settings.SESSION_FOLDER] and [settings.UPLOAD_FOLDER] *)
Variable SESSION_FOLDER : string.
Variable UPLOAD_FOLDER : string.

(** What a library call outside the model answered. *)
Definition answered {A} (r : result A) : M A := fun w => (r, w).

(** [upload_dataset]. [upload] is the part named [file] of the request (its
    name as the client sent it and its bytes), [None] when the request has no
    such part; [fresh_id] is the identifier [create_session] drew, [secured]
    what [secure_filename] made of the name, [excel] what [pd.read_excel]
    answered. *)
Definition upload_dataset (now : Z) (fresh_id : string)
    (upload : option (string * file)) (secured : string)
    (excel : result DataFrame) : M upload_response :=
  match upload with
  | None => ret (UploadBadRequest "No file part")
  | Some (name, content) =>
      if String.eqb name "" then ret (UploadBadRequest "No selected file")
      else if allowed_file name then
        session_id <- create_session SESSION_FOLDER now fresh_id ;;
        let filename := secured in
        let filepath := path_join UPLOAD_FOLDER filename in
        write_file filepath content ;;;
        try_except
          (parsed <-
             (if endswith ".csv" filename then
                df <- read_csv filepath ;; ret (Some df)
              else if endswith ".xls" filename || endswith ".xlsx" filename then
                df <- answered excel ;; ret (Some df)
              else ret None) ;;
           match parsed with
           | None => ret (UploadBadRequest "Unsupported file format")
           | Some df =>
               _ <- add_session_data SESSION_FOLDER now session_id df
                      (Some filename) ;;
               remove filepath ;;;
               metadata <- Service.get_session_metadata now session_id ;;
               ret (UploadOk session_id filename
                      (default (MInt (Z.of_nat (n_rows df))) (metadata !! "rows"))
                      (default (MInt (Z.of_nat (n_columns df)))
                               (metadata !! "columns"))
                      (default (MList (columns df)) (metadata !! "column_names")))
           end)
          (fun e =>
             w <- get_world ;;
             (if path_exists filepath w then remove filepath else ret tt) ;;;
             ret (UploadServerError ("Error processing file: " +:+ exc_str e)))
      else ret (UploadBadRequest "Invalid file format")
  end.

(** [get_session_info]: [jsonify] raises on a dictionary that holds a frame. *)
Definition get_session_info (now : Z) (session_id : string)
  : M session_response :=
  try_except
    (session <- get_session SESSION_FOLDER now session_id ;;
     if bool_decide (map_Forall (fun _ v => jsonable v = true) session) then
       ret (SessionOk session)
     else
       raise (OtherError "Object of type DataFrame is not JSON serializable"))
    (fun e =>
       match e with
       | KeyError _ => ret (SessionNotFound "Session not found")
       | _ =>
           ret (SessionServerError ("Error getting session info: " +:+ exc_str e))
       end).


End Folders.

End DatasetRoutes.

(** ** Vocabulary of the further statements *)

(** The remote service gave nothing to use: the call raised, the status was
    not 200, or the payload had no content to read. *)
Definition remote_failed (reply : groq_reply) : bool :=
  match reply with
  | GroqRaises _ => true
  | GroqResponse status_code content =>
      negb (status_code =? 200)%Z || negb (bool_decide (is_Some content))
  end.

(** A store takes what is saved: the database, or else the fallback map. *)
Definition store_accepts (w : World) : Prop :=
  mongo w <> None \/ IN_MEMORY_SESSIONS w <> None.

(** The metadata a new session starts with. *)
Definition created_metadata (now : Z) : gmap string meta_value :=
  {[ "created_at" := MTime now;
     "expires_at" := MTime (now + Mongo.seven_days);
     "has_data" := MBool false ]}.


(** * Facts about the translator *)

Section TranslatorFacts.
Import Py Templates SqlSyntax.

Lemma find_column_In cols q c : find_column cols q = Some c -> In c cols.
Proof. intros H. apply find_some in H. tauto. Qed.

Lemma group_scan_In cols0 q : forall cols g g' a',
  incl cols cols0 ->
  (forall x, g = Some x -> In x cols0) ->
  group_scan cols q g = (g', a') ->
  (forall x, g' = Some x -> In x cols0) /\ (forall x, a' = Some x -> In x cols0).
Proof.
  induction cols as [|col rest IH]; intros g g' a' Hincl Hg Hscan; simpl in Hscan.
  - inversion Hscan; subst. split; [exact Hg | discriminate].
  - assert (Hcol : In col cols0) by (apply Hincl; left; reflexivity).
    assert (Hrest : incl rest cols0) by (intros x Hx; apply Hincl; right; exact Hx).
    destruct (contains (lower col) q).
    + destruct (negb (truthy_opt g)).
      * apply (IH (Some col) g' a' Hrest); [| exact Hscan].
        intros x Hx. injection Hx as <-. exact Hcol.
      * inversion Hscan; subst. split; [exact Hg |].
        intros x Hx. injection Hx as <-. exact Hcol.
    + apply (IH g g' a' Hrest Hg Hscan).
Qed.

Lemma take_digits_all s : all_chars is_digit (take_digits s) = true.
Proof.
  induction s as [|c s IH]; simpl; [reflexivity |].
  destruct (is_digit c) eqn:E; simpl; [rewrite E; exact IH | reflexivity].
Qed.

Lemma first_number_digits q n :
  first_number q = Some n -> all_chars is_digit n = true /\ truthy n = true.
Proof.
  induction q as [|c q IH]; simpl; [discriminate |].
  destruct (is_digit c) eqn:E.
  - intros [= <-]. split.
    + simpl. rewrite E. simpl. apply take_digits_all.
    + reflexivity.
  - exact IH.
Qed.

Lemma where_value_digits q :
  all_chars is_digit (where_value q) = true /\ truthy (where_value q) = true.
Proof.
  unfold where_value. destruct (first_number q) eqn:E.
  - eapply first_number_digits; eauto.
  - split; reflexivity.
Qed.

Lemma where_clause_output cols col q tn :
  In col cols -> matcher_output cols tn (where_clause col q tn).
Proof.
  intros Hin. unfold where_clause.
  destruct (where_value_digits q) as [Hd Ht].
  repeat match goal with |- context [if ?b then _ else _] => destruct b end;
    try (apply out_where; simpl; auto; fail).
  apply out_where_not_null. exact Hin.
Qed.



Ltac split_ifs :=
  repeat match goal with
         | |- context [if ?b then _ else _] => destruct b eqn:?
         end.

Lemma keyword_rules_output cols q tn :
  blank_or_output cols tn (keyword_rules cols q tn).
Proof.
  unfold keyword_rules, blank_or_output.
  destruct (find_column cols q) as [col|] eqn:Hfind;
    [apply find_column_In in Hfind |].
  - destruct (group_scan cols q None) as [g a] eqn:Hscan.
    destruct (group_scan_In cols q cols None g a (incl_refl _)
                (fun x H => ltac:(discriminate)) Hscan) as [Hg Ha].
    split_ifs; simpl; split_ifs;
      try (left; reflexivity);
      try (right; first
             [ apply out_default | apply out_count
             | apply out_avg; assumption | apply out_sum; assumption
             | apply out_max; assumption | apply out_min; assumption
             | apply out_group_count; assumption
             | apply where_clause_output; assumption ]; fail).
    all: destruct g as [g|]; [| left; reflexivity].
    all: destruct a as [a|]; split_ifs; try (left; reflexivity); right.
    all: first [ apply out_group_avg; [apply Hg | apply Ha]; reflexivity
               | apply out_group_count; apply Hg; reflexivity ].
  - destruct (group_scan cols q None) as [g a] eqn:Hscan.
    destruct (group_scan_In cols q cols None g a (incl_refl _)
                (fun x H => ltac:(discriminate)) Hscan) as [Hg Ha].
    split_ifs; simpl; split_ifs;
      try (left; reflexivity);
      try (right; first [ apply out_default | apply out_count ]; fail).
    all: destruct g as [g|]; [| left; reflexivity].
    all: destruct a as [a|]; split_ifs; try (left; reflexivity); right.
    all: first [ apply out_group_avg; [apply Hg | apply Ha]; reflexivity
               | apply out_group_count; apply Hg; reflexivity ].
Qed.

Lemma age_rules_output cols q tn s :
  blank_or_output cols tn s -> blank_or_output cols tn (age_rules q tn s).
Proof.
  intros Hs. unfold age_rules. split_ifs; try exact Hs;
    right; apply out_shortcut; simpl; tauto.
Qed.

Lemma salary_rules_output cols q tn s :
  blank_or_output cols tn s -> blank_or_output cols tn (salary_rules q tn s).
Proof.
  intros Hs. unfold salary_rules. split_ifs; try exact Hs;
    right; apply out_shortcut; simpl; tauto.
Qed.

Lemma matcher_output_truthy cols tn text :
  matcher_output cols tn text -> truthy text = true.
Proof.
  intros H. destruct H; try reflexivity.
  simpl in H. decompose [or] H; subst; try reflexivity. contradiction.
Qed.

(** The matcher is total on a connected assistant, and its output has one of
    the shapes of [matcher_output]. *)
Lemma natural_language_to_sql_output self sch nl :
  schema self = Some sch ->
  exists text,
    natural_language_to_sql self nl = Ok text /\
    matcher_output (map col_name sch) (table_name self) text.
Proof.
  intros Hsch. unfold natural_language_to_sql. rewrite Hsch.
  set (q := strip (lower nl)). set (cols := map col_name sch).
  set (tn := table_name self).
  pose proof (salary_rules_output cols q tn _
                (age_rules_output cols q tn _ (keyword_rules_output cols q tn)))
    as [Hblank | Hout].
  - eexists. split; [reflexivity |]. rewrite Hblank. simpl. apply out_default.
  - eexists. split; [reflexivity |].
    rewrite (matcher_output_truthy _ _ _ Hout). simpl. exact Hout.
Qed.




(** *** Tokens of text built around names *)

Lemma append_assoc (a b c : string) : (a +:+ b) +:+ c = a +:+ (b +:+ c).
Proof. induction a as [|x a IH]; simpl; [reflexivity | now rewrite IH]. Qed.






Lemma lower_app a b : lower (a +:+ b) = lower a +:+ lower b.
Proof. induction a as [|x a IH]; simpl; [reflexivity | now rewrite IH]. Qed.

Lemma all_chars_app p a b :
  all_chars p (a +:+ b) = all_chars p a && all_chars p b.
Proof.
  induction a as [|x a IH]; simpl; [reflexivity |].
  now rewrite IH, andb_assoc.
Qed.


















End TranslatorFacts.

Section TranslatorClaims.
Import Py Templates SqlSyntax.


(** Taken alone, the salary shortcut answers the request with the average of
    the salary column. *)
Lemma salary_shortcut_alone :
  salary_rules "what is the average salary" "user_data" ""
  = "SELECT AVG(salary) as average_salary FROM user_data".
Proof. reflexivity. Qed.

(** The keyword rule runs first and finds the column [age] inside the word
    "average". *)
Lemma age_found_in_average :
  find_column (columns SAMPLE_DATA) "what is the average salary" = Some "age".
Proof. reflexivity. Qed.

(** C1 (as the code behaves): on the sample dataset the request "what is the
    average salary", translated by the rule-based matcher, gives the query
    text [SELECT AVG(age) as average_age FROM user_data], alone and through
    [execute_sql_from_natural_language] with [use_groq = false]. *)
Theorem average_salary_request_averages_age :
  natural_language_to_sql sample_assistant "what is the average salary"
  = Ok "SELECT AVG(age) as average_age FROM user_data"
  /\ forall key remote engine,
       exists results,
         (execute_sql_from_natural_language SAMPLE_DATA
            "what is the average salary" false key true remote engine).1
         = NLAnswer "what is the average salary"
             (Some "SELECT AVG(age) as average_age FROM user_data") results.
Proof.
  split; [reflexivity |]. intros key remote engine. eexists. reflexivity.
Qed.







End TranslatorClaims.

(** * Facts about the executor *)

Section ExecutorFacts.
Import Py.


Lemma close_connection_closed self : conn (close_connection self) = None.
Proof. unfold close_connection. destruct (conn self) eqn:E; [reflexivity | exact E]. Qed.

(** When [to_sql] fails no query is executed, and the connection opened for
    the load is left as it is. *)
Lemma load_failure_leaves_connection_open df query nl key use_groq remote engine :
  (execute_sql df query key false engine).1
  = SqlServerError "Failed to create in-memory SQL database"
  /\ is_Some (conn (execute_sql df query key false engine).2)
  /\ (execute_sql_from_natural_language df nl use_groq key false remote engine).1
     = NLError "Failed to create SQL database from dataset"
  /\ is_Some (conn (execute_sql_from_natural_language df nl use_groq key false
                      remote engine).2).
Proof. repeat split; eauto. Qed.


End ExecutorFacts.


(** * Facts about the store and the sessions *)

Section StoreFacts.
Import Py Fs Codec Mongo.

Variable SESSION_FOLDER : string.

Lemma sample_prefix_truthy sid :
  startswith "sample-" sid = true -> truthy sid = true.
Proof. destruct sid; [discriminate | reflexivity]. Qed.

Lemma sample_guard sid :
  truthy sid && startswith "sample-" sid = startswith "sample-" sid.
Proof.
  destruct (startswith "sample-" sid) eqn:E.
  - now rewrite (sample_prefix_truthy _ E).
  - apply andb_false_r.
Qed.

(** *** The metadata lookup *)

Lemma get_session_metadata_found now sid w db session :
  mongo w = Some db ->
  sessions_collection db !! sid = Some session ->
  get_session_metadata now sid w
  = (Ok (Some (doc_metadata session)),
     add_event (EvRenewed sid (now + seven_days))
       (set_sessions
          (<[sid := mkDoc (doc_metadata session) (created_at session) now
                          (now + seven_days)]> (sessions_collection db)) w)).
Proof. intros Hdb Hdoc. unfold get_session_metadata. now rewrite Hdb, Hdoc. Qed.

Lemma get_session_metadata_plain now sid w :
  startswith "sample-" sid = false ->
  (get_session_metadata now sid w).1 = Ok (persisted_metadata sid w).
Proof.
  intros Hs. unfold get_session_metadata, persisted_metadata.
  destruct (mongo w) as [db|]; [| reflexivity].
  destruct (sessions_collection db !! sid); [reflexivity |].
  now rewrite Hs.
Qed.

Lemma get_session_metadata_missing now sid w :
  startswith "sample-" sid = false ->
  no_metadata (persisted_metadata sid w) = true ->
  (mongo w = None \/ exists db, mongo w = Some db /\ sessions_collection db !! sid = None) ->
  get_session_metadata now sid w = (Ok (persisted_metadata sid w), w).
Proof.
  intros Hs _ Hcase. unfold get_session_metadata, persisted_metadata.
  destruct Hcase as [Hm | (db & Hm & Hdoc)]; rewrite Hm; [reflexivity |].
  now rewrite Hdoc, Hs.
Qed.

Lemma persisted_expires_set sid coll w doc :
  mongo w <> None ->
  coll !! sid = Some doc ->
  persisted_expires sid (set_sessions coll w) = Some (expires_at doc).
Proof.
  intros Hm Hdoc. unfold persisted_expires, set_sessions.
  destruct (mongo w) as [db|]; [| contradiction]. simpl. now rewrite Hdoc.
Qed.

Lemma persisted_expires_insert sid coll w doc :
  mongo w <> None ->
  persisted_expires sid (set_sessions (<[sid := doc]> coll) w)
  = Some (expires_at doc).
Proof. intros Hm. apply persisted_expires_set; [exact Hm | apply lookup_insert_eq]. Qed.

Lemma persisted_expires_add_event sid e w :
  persisted_expires sid (add_event e w) = persisted_expires sid w.
Proof. reflexivity. Qed.

(** A persisted record is renewed by the lookup, whatever it held. *)
Lemma get_session_metadata_renews now sid w e0 :
  persisted_expires sid w = Some e0 ->
  persisted_expires sid (get_session_metadata now sid w).2
  = Some (now + seven_days)%Z.
Proof.
  unfold persisted_expires at 1. intros H.
  destruct (mongo w) as [db|] eqn:Hdb; [| discriminate]. simpl in H.
  destruct (sessions_collection db !! sid) as [session|] eqn:Hdoc; [| discriminate].
  rewrite (get_session_metadata_found now sid w db session Hdb Hdoc). simpl.
  rewrite persisted_expires_add_event.
  rewrite persisted_expires_insert by congruence. reflexivity.
Qed.


(** *** Saving metadata *)

Lemma save_session_metadata_renews now sid md w :
  mongo w <> None ->
  persisted_expires sid (save_session_metadata now sid md w).2
  = Some (now + seven_days)%Z.
Proof.
  intros Hm. unfold save_session_metadata.
  destruct (mongo w) as [db|] eqn:Hdb; [| contradiction]. simpl.
  rewrite persisted_expires_add_event.
  destruct (sessions_collection db !! sid);
    rewrite persisted_expires_insert by congruence; reflexivity.
Qed.

Lemma save_session_metadata_returns now sid md w :
  exists ok, (save_session_metadata now sid md w).1 = Ok ok.
Proof.
  unfold save_session_metadata.
  destruct (mongo w); [eexists; reflexivity |].
  destruct (IN_MEMORY_SESSIONS w); eexists; reflexivity.
Qed.

Lemma persisted_expires_reachable sid w e0 :
  persisted_expires sid w = Some e0 -> mongo w <> None.
Proof. unfold persisted_expires. destruct (mongo w); [congruence | discriminate]. Qed.

Ltac run :=
  unfold pickle_dump, pickle_load, read_csv;
  unfold bind, ret, raise, try_except, get_world, makedirs, write_file,
    read_file, log; simpl.

Lemma handle_sample_session_renews now sid w e0 :
  persisted_expires sid w = Some e0 ->
  persisted_expires sid (handle_sample_session SESSION_FOLDER now sid w).2
  = Some (now + seven_days)%Z.
Proof.
  intros H. pose proof (persisted_expires_reachable _ _ _ H) as Hm.
  unfold handle_sample_session. run.
  destruct (path_exists (session_dir_of SESSION_FOLDER sid) w); simpl.
  - pose proof (get_session_metadata_renews now sid w e0 H) as Hr.
    destruct (get_session_metadata now sid w) as [[found|e] w1] eqn:Hg; simpl in *;
      [| exact Hr].
    destruct (no_metadata found); simpl; [| exact Hr].
    match goal with
    | |- context [save_session_metadata now sid ?md w1] =>
        pose proof (save_session_metadata_renews now sid md w1
                      (persisted_expires_reachable _ _ _ Hr)) as Hs;
        destruct (save_session_metadata now sid md w1) as [[ok|e] w2]; exact Hs
    end.
  - match goal with
    | |- context [save_session_metadata now sid ?md ?w1] =>
        pose proof (save_session_metadata_renews now sid md w1 Hm) as Hs;
        destruct (save_session_metadata now sid md w1) as [[ok|e] w2]; exact Hs
    end.
Qed.

(** Whatever [get_session] answers, a record the durable store holds is
    renewed to seven days from the call. *)
Lemma get_session_renews now sid w e0 :
  persisted_expires sid w = Some e0 ->
  persisted_expires sid (get_session SESSION_FOLDER now sid w).2
  = Some (now + seven_days)%Z.
Proof.
  intros H. unfold get_session. rewrite sample_guard.
  destruct (startswith "sample-" sid);
    [now apply (handle_sample_session_renews now sid w e0) |].
  run.
  pose proof (get_session_metadata_renews now sid w e0 H) as Hr.
  destruct (get_session_metadata now sid w) as [[found|e] w1]; simpl in *;
    [| exact Hr].
  destruct (no_metadata found); simpl; [exact Hr |].
  destruct (path_exists (session_dir_of SESSION_FOLDER sid) w1); exact Hr.
Qed.



(** *** What the operations leave untouched *)


Lemma get_session_metadata_step now sid w :
  startswith "sample-" sid = false ->
  exists w1 added,
    get_session_metadata now sid w = (Ok (persisted_metadata sid w), w1)
    /\ store_step w w1 added
    /\ persist_events added = []
    /\ persisted_metadata sid w1 = persisted_metadata sid w
    /\ (mongo w = None -> w1 = w)
    /\ (mongo w1 = None <-> mongo w = None)
    /\ IN_MEMORY_SESSIONS w1 = IN_MEMORY_SESSIONS w.
Proof.
  intros Hs. unfold get_session_metadata, persisted_metadata.
  destruct (mongo w) as [db|] eqn:Hdb.
  - destruct (sessions_collection db !! sid) as [session|] eqn:Hdoc.
    + eexists _, [EvRenewed sid (now + seven_days)%Z].
      split; [reflexivity |]. unfold store_step, set_sessions, add_event.
      rewrite Hdb. simpl. rewrite lookup_insert_eq.
      split; [repeat split; reflexivity |].
      split; [reflexivity |]. split; [reflexivity |].
      split; [discriminate |]. split; [| reflexivity].
      split; discriminate.
    + rewrite Hs. exists w, []. unfold store_step. rewrite Hdb, Hdoc, app_nil_r.
      repeat split; try reflexivity; try discriminate; auto.
  - exists w, []. unfold store_step. rewrite Hdb, app_nil_r.
    repeat split; try reflexivity; auto.
Qed.

Lemma save_session_metadata_step now sid md w :
  exists ok w1 ev,
    save_session_metadata now sid md w = (Ok ok, w1)
    /\ store_step w w1 [ev]
    /\ is_metadata_event ev = true
    /\ (mongo w <> None \/ IN_MEMORY_SESSIONS w <> None ->
        persisted_metadata sid w1 = Some md)
    /\ (mongo w1 = None <-> mongo w = None).
Proof.
  unfold save_session_metadata, store_step, persisted_metadata, memory_lookup.
  destruct (mongo w) as [db|] eqn:Hdb.
  - eexists _, _, _. split; [reflexivity |].
    unfold set_sessions, add_event. rewrite Hdb. simpl. rewrite lookup_insert_eq.
    split; [repeat split; reflexivity |]. split; [reflexivity |].
    split; [intros _; destruct (sessions_collection db !! sid); reflexivity |].
    split; discriminate.
  - destruct (IN_MEMORY_SESSIONS w) as [mem|] eqn:Hmem.
    + eexists _, _, _. split; [reflexivity |].
      unfold set_memory, add_event. simpl. rewrite Hdb. simpl.
      rewrite lookup_insert_eq.
      repeat split; try reflexivity; auto.
    + eexists _, _, _. split; [reflexivity |].
      unfold add_event. simpl. rewrite Hdb, Hmem.
      repeat split; try reflexivity; auto.
      intros [H | H]; contradiction.
Qed.

Lemma save_dataset_step sid filename info w :
  exists w1 added,
    save_dataset sid filename info w = (Ok tt, w1)
    /\ store_step w w1 added
    /\ persist_events added = []
    /\ persisted_metadata sid w1 = persisted_metadata sid w.
Proof.
  unfold save_dataset, store_step, persisted_metadata, memory_lookup.
  destruct (mongo w) as [db|] eqn:Hdb.
  - eexists _, [EvDatasetSaved sid]. split; [reflexivity |]. simpl.
    repeat split; reflexivity.
  - exists w, []. rewrite Hdb, app_nil_r. repeat split; reflexivity.
Qed.

(** The snapshot writes, spelled out. *)
Lemma write_snapshots_spec sid df w :
  write_snapshots SESSION_FOLDER sid df w
  = (Ok (pickle_path_of SESSION_FOLDER sid, csv_path_of SESSION_FOLDER sid),
     mkWorld
       (<[csv_path_of SESSION_FOLDER sid := to_csv df]>
          (<[pickle_path_of SESSION_FOLDER sid := PickleOf df]> (files w)))
       ({[session_dir_of SESSION_FOLDER sid]} ∪ dirs w)
       (mongo w) (IN_MEMORY_SESSIONS w)
       (events w ++ [EvMakedirs (session_dir_of SESSION_FOLDER sid);
                     EvFileWrite (pickle_path_of SESSION_FOLDER sid) (PickleOf df);
                     EvFileWrite (csv_path_of SESSION_FOLDER sid) (to_csv df)])).
Proof.
  unfold write_snapshots, pickle_path_of, csv_path_of. run.
  now rewrite <- !app_assoc.
Qed.

Lemma new_events_app w w' added :
  events w' = events w ++ added -> new_events w w' = added.
Proof. intros H. unfold new_events. rewrite H. apply drop_app_length. Qed.

Lemma persist_events_app a b :
  persist_events (a ++ b) = persist_events a ++ persist_events b.
Proof. unfold persist_events. apply List.filter_app. Qed.


(** *** Attaching a dataset *)

Lemma no_metadata_found md :
  md <> ∅ -> no_metadata (Some md) = false.
Proof. intros H. unfold no_metadata. now apply bool_decide_eq_false. Qed.

Lemma found_store_accepts sid w md :
  persisted_metadata sid w = Some md ->
  mongo w <> None \/ IN_MEMORY_SESSIONS w <> None.
Proof.
  unfold persisted_metadata, memory_lookup.
  destruct (mongo w); [left; discriminate |].
  destruct (IN_MEMORY_SESSIONS w); [right; discriminate | discriminate].
Qed.


Lemma add_session_data_spec now sid df filename w md :
  startswith "sample-" sid = false ->
  persisted_metadata sid w = Some md ->
  md <> ∅ ->
  exists w' pre ev post,
    add_session_data SESSION_FOLDER now sid df filename w = (Ok sid, w')
    /\ events w'
       = events w ++ pre
         ++ [EvMakedirs (session_dir_of SESSION_FOLDER sid);
             EvFileWrite (pickle_path_of SESSION_FOLDER sid) (PickleOf df);
             EvFileWrite (csv_path_of SESSION_FOLDER sid) (to_csv df);
             ev] ++ post
    /\ persist_events pre = [] /\ persist_events post = []
    /\ is_metadata_event ev = true
    /\ persisted_metadata sid w' = Some (attached_metadata SESSION_FOLDER sid df filename md)
    /\ files w'
       = <[csv_path_of SESSION_FOLDER sid := to_csv df]>
           (<[pickle_path_of SESSION_FOLDER sid := PickleOf df]> (files w))
    /\ dirs w' = {[session_dir_of SESSION_FOLDER sid]} ∪ dirs w.
Proof.
  intros Hs Hmd Hne.
  destruct (get_session_metadata_step now sid w Hs)
    as (w1 & pre & Hget & (Hf1 & Hd1 & He1) & Hpre & Hpm1 & _ & Hreach1 & Hmem1).
  pose proof (found_store_accepts sid w md Hmd) as Hacc.
  unfold add_session_data. rewrite sample_guard, Hs.
  unfold bind at 1. rewrite Hget, Hmd, (no_metadata_found md Hne).
  unfold bind at 1. rewrite write_snapshots_spec.
  cbv beta iota zeta. change (default ∅ (Some md)) with md.
  set (w2 := mkWorld _ _ (mongo w1) (IN_MEMORY_SESSIONS w1) _).
  destruct (save_session_metadata_step now sid
              (attached_metadata SESSION_FOLDER sid df filename md) w2)
    as (ok & w3 & ev & Hsave & (Hf3 & Hd3 & He3) & Hev & Hpm3 & _).
  unfold attached_metadata in Hsave.
  unfold bind at 1. rewrite Hsave.
  match goal with
  | |- context [save_dataset sid filename ?info] =>
      destruct (save_dataset_step sid filename info w3)
        as (w4 & post & Hds & (Hf4 & Hd4 & He4) & Hpost & Hpm4)
  end.
  unfold bind at 1. rewrite Hds. unfold ret.
  exists w4, pre, ev, post. split; [reflexivity |].
  split.
  { rewrite He4, He3. subst w2. cbn [events]. rewrite He1.
    now rewrite <- !app_assoc. }
  split; [exact Hpre |]. split; [exact Hpost |]. split; [exact Hev |].
  split.
  { rewrite Hpm4. apply Hpm3. subst w2. cbn [mongo IN_MEMORY_SESSIONS].
    rewrite Hmem1. destruct Hacc as [Hm | Hm]; [left | right; exact Hm].
    intros H. apply Hm. now apply Hreach1. }
  split.
  { rewrite Hf4, Hf3. subst w2. cbn [files]. now rewrite Hf1. }
  rewrite Hd4, Hd3. subst w2. cbn [dirs]. now rewrite Hd1.
Qed.


Lemma update_session_data_spec now sid df w md :
  startswith "sample-" sid = false ->
  persisted_metadata sid w = Some md ->
  md <> ∅ ->
  exists w' pre ev,
    update_session_data SESSION_FOLDER now sid df w = (Ok sid, w')
    /\ events w'
       = events w ++ pre
         ++ [EvMakedirs (session_dir_of SESSION_FOLDER sid);
             EvFileWrite (pickle_path_of SESSION_FOLDER sid) (PickleOf df);
             EvFileWrite (csv_path_of SESSION_FOLDER sid) (to_csv df);
             ev]
    /\ persist_events pre = []
    /\ is_metadata_event ev = true
    /\ persisted_metadata sid w' = Some (updated_metadata SESSION_FOLDER now sid df md)
    /\ files w'
       = <[csv_path_of SESSION_FOLDER sid := to_csv df]>
           (<[pickle_path_of SESSION_FOLDER sid := PickleOf df]> (files w)).
Proof.
  intros Hs Hmd Hne.
  destruct (get_session_metadata_step now sid w Hs)
    as (w1 & pre & Hget & (Hf1 & Hd1 & He1) & Hpre & Hpm1 & _ & Hreach1 & Hmem1).
  pose proof (found_store_accepts sid w md Hmd) as Hacc.
  unfold update_session_data.
  unfold bind at 1. rewrite Hget, Hmd, (no_metadata_found md Hne).
  unfold bind at 1. rewrite write_snapshots_spec.
  cbv beta iota zeta. change (default ∅ (Some md)) with md.
  set (w2 := mkWorld _ _ (mongo w1) (IN_MEMORY_SESSIONS w1) _).
  destruct (save_session_metadata_step now sid (updated_metadata SESSION_FOLDER now sid df md) w2)
    as (ok & w3 & ev & Hsave & (Hf3 & Hd3 & He3) & Hev & Hpm3 & _).
  unfold updated_metadata in Hsave.
  unfold bind at 1. rewrite Hsave. unfold ret.
  exists w3, pre, ev. split; [reflexivity |].
  split.
  { rewrite He3. subst w2. cbn [events]. rewrite He1.
    now rewrite <- !app_assoc. }
  split; [exact Hpre |]. split; [exact Hev |].
  split.
  { apply Hpm3. subst w2. cbn [mongo IN_MEMORY_SESSIONS].
    rewrite Hmem1. destruct Hacc as [Hm | Hm]; [left | right; exact Hm].
    intros H. apply Hm. now apply Hreach1. }
  rewrite Hf3. subst w2. cbn [files]. now rewrite Hf1.
Qed.

(** Without a record nothing is written. *)
Lemma add_session_data_missing now sid df filename w :
  startswith "sample-" sid = false ->
  no_metadata (persisted_metadata sid w) = true ->
  exists msg w',
    add_session_data SESSION_FOLDER now sid df filename w = (Raise (KeyError msg), w')
    /\ files w' = files w
    /\ persist_events (new_events w w') = [].
Proof.
  intros Hs Hno.
  destruct (get_session_metadata_step now sid w Hs)
    as (w1 & pre & Hget & (Hf1 & Hd1 & He1) & Hpre & _).
  unfold add_session_data. rewrite sample_guard, Hs.
  unfold bind at 1. rewrite Hget, Hno. unfold raise.
  eexists _, w1. split; [reflexivity |]. split; [exact Hf1 |].
  now rewrite (new_events_app w w1 pre He1).
Qed.

Lemma update_session_data_missing now sid df w :
  startswith "sample-" sid = false ->
  no_metadata (persisted_metadata sid w) = true ->
  exists msg w',
    update_session_data SESSION_FOLDER now sid df w = (Raise (ValueError msg), w')
    /\ files w' = files w
    /\ persist_events (new_events w w') = [].
Proof.
  intros Hs Hno.
  destruct (get_session_metadata_step now sid w Hs)
    as (w1 & pre & Hget & (Hf1 & Hd1 & He1) & Hpre & _).
  unfold update_session_data.
  unfold bind at 1. rewrite Hget, Hno. unfold raise.
  eexists _, w1. split; [reflexivity |]. split; [exact Hf1 |].
  now rewrite (new_events_app w w1 pre He1).
Qed.

Lemma no_metadata_cases (found : option (gmap string meta_value)) :
  no_metadata found = true \/ exists md, found = Some md /\ md <> ∅.
Proof.
  destruct found as [md|]; [| left; reflexivity].
  unfold no_metadata. destruct (decide (md = ∅)) as [-> | Hne].
  - left. now apply bool_decide_eq_true.
  - right. eauto.
Qed.

Lemma attached_has_data sid df filename md :
  attached_metadata SESSION_FOLDER sid df filename md !! "has_data" = Some (MBool true).
Proof. unfold attached_metadata. apply lookup_union_Some_l. reflexivity. Qed.

Lemma updated_has_data now sid df md :
  updated_metadata SESSION_FOLDER now sid df md !! "has_data" = Some (MBool true).
Proof. unfold updated_metadata. apply lookup_union_Some_l. reflexivity. Qed.

Lemma write_snapshots_keeps_metadata sid df w sid' :
  persisted_metadata sid' (with_snapshots SESSION_FOLDER sid df w) = persisted_metadata sid' w.
Proof. unfold with_snapshots. rewrite write_snapshots_spec. reflexivity. Qed.


Lemma get_session_metadata_keeps_metadata now sid w sid' :
  startswith "sample-" sid = false ->
  persisted_metadata sid' (get_session_metadata now sid w).2
  = persisted_metadata sid' w.
Proof.
  intros Hs. unfold get_session_metadata.
  destruct (mongo w) as [db|] eqn:Hdb; [| reflexivity].
  destruct (sessions_collection db !! sid) as [session|] eqn:Hdoc;
    [| now rewrite Hs].
  unfold persisted_metadata, set_sessions, add_event. rewrite Hdb. simpl.
  destruct (decide (sid = sid')) as [<- | Hne].
  - now rewrite lookup_insert_eq, Hdoc.
  - now rewrite lookup_insert_ne.
Qed.

Lemma persist_events_attach dir df_path csv_path frame ev pre post :
  persist_events pre = [] -> persist_events post = [] ->
  is_metadata_event ev = true ->
  persist_events
    (pre ++ [EvMakedirs dir; EvFileWrite df_path (PickleOf frame);
             EvFileWrite csv_path (to_csv frame); ev] ++ post)
  = [EvFileWrite df_path (PickleOf frame);
     EvFileWrite csv_path (to_csv frame); ev].
Proof.
  intros Hpre Hpost Hev. rewrite !persist_events_app, Hpre, Hpost, app_nil_r.
  unfold persist_events. simpl. now rewrite Hev, orb_true_r.
Qed.

Lemma snapshot_then_metadata_nil : snapshot_then_metadata [].
Proof. exists [], []. split; [reflexivity |]. split; [now left | reflexivity]. Qed.

Lemma snapshot_then_metadata_attach df_path csv_path frame ev :
  is_metadata_event ev = true ->
  snapshot_then_metadata
    [EvFileWrite df_path (PickleOf frame); EvFileWrite csv_path (to_csv frame); ev].
Proof.
  intros Hev.
  exists [EvFileWrite df_path (PickleOf frame); EvFileWrite csv_path (to_csv frame)],
         [ev].
  split; [reflexivity |]. split; [right; eauto |]. simpl. now rewrite Hev.
Qed.

(** C7 (amended): for a session id that does not start with "sample-", in
    every execution of [add_session_data] and of [update_session_data] the
    events on snapshot files and metadata come in this order: the pickle of
    the frame, the text form of the same frame (no file is read in between),
    then the metadata save. When the call succeeds these three events are
    exactly what happened, and the saved metadata has [has_data = true]. While
    the snapshot writes are pending (after the metadata lookup and the writes,
    before the save) the stores hold for every session the metadata they held
    before the call. *)
Theorem snapshot_writes_precede_metadata :
  forall (now : Z) (sid : string) (df : DataFrame) (filename : option string)
         (w : World),
    startswith "sample-" sid = false ->
    let attach := add_session_data SESSION_FOLDER now sid df filename w in
    let update := update_session_data SESSION_FOLDER now sid df w in
    snapshot_then_metadata (persist_events (new_events w attach.2))
    /\ snapshot_then_metadata (persist_events (new_events w update.2))
    /\ (succeeded attach.1 = true ->
        exists ev md,
          persist_events (new_events w attach.2)
          = [EvFileWrite (pickle_path_of SESSION_FOLDER sid) (PickleOf df);
             EvFileWrite (csv_path_of SESSION_FOLDER sid) (to_csv df); ev]
          /\ is_metadata_event ev = true
          /\ persisted_metadata sid attach.2 = Some md
          /\ md !! "has_data" = Some (MBool true))
    /\ (succeeded update.1 = true ->
        exists ev md,
          persist_events (new_events w update.2)
          = [EvFileWrite (pickle_path_of SESSION_FOLDER sid) (PickleOf df);
             EvFileWrite (csv_path_of SESSION_FOLDER sid) (to_csv df); ev]
          /\ is_metadata_event ev = true
          /\ persisted_metadata sid update.2 = Some md
          /\ md !! "has_data" = Some (MBool true))
    /\ (forall sid',
          persisted_metadata sid'
            (with_snapshots SESSION_FOLDER sid df (get_session_metadata now sid w).2)
          = persisted_metadata sid' w).
Proof.
  intros now sid df filename w Hs attach update.
  assert (Hkeep : forall sid',
             persisted_metadata sid'
               (with_snapshots SESSION_FOLDER sid df (get_session_metadata now sid w).2)
             = persisted_metadata sid' w).
  { intros sid'. rewrite write_snapshots_keeps_metadata.
    now apply get_session_metadata_keeps_metadata. }
  destruct (no_metadata_cases (persisted_metadata sid w))
    as [Hno | (md & Hmd & Hne)].
  - destruct (add_session_data_missing now sid df filename w Hs Hno)
      as (msg1 & w1 & Hadd & _ & Hev1).
    destruct (update_session_data_missing now sid df w Hs Hno)
      as (msg2 & w2 & Hupd & _ & Hev2).
    subst attach update. rewrite Hadd, Hupd. cbn [fst snd succeeded].
    rewrite Hev1, Hev2.
    repeat split; try apply snapshot_then_metadata_nil; try discriminate.
    exact Hkeep.
  - destruct (add_session_data_spec now sid df filename w md Hs Hmd Hne)
      as (w1 & pre1 & ev1 & post1 & Hadd & He1 & Hpre1 & Hpost1 & Hev1 & Hpm1 & _).
    destruct (update_session_data_spec now sid df w md Hs Hmd Hne)
      as (w2 & pre2 & ev2 & Hupd & He2 & Hpre2 & Hev2 & Hpm2 & _).
    subst attach update. rewrite Hadd, Hupd. cbn [fst snd succeeded].
    rewrite (new_events_app w w1 _ He1).
    rewrite (persist_events_attach _ _ _ _ _ _ _ Hpre1 Hpost1 Hev1).
    replace (events w ++ pre2 ++ _) with
      (events w ++ pre2
       ++ [EvMakedirs (session_dir_of SESSION_FOLDER sid);
           EvFileWrite (pickle_path_of SESSION_FOLDER sid) (PickleOf df);
           EvFileWrite (csv_path_of SESSION_FOLDER sid) (to_csv df); ev2] ++ [])
      in He2 by now rewrite app_nil_r.
    rewrite (new_events_app w w2 _ He2).
    rewrite (persist_events_attach _ _ _ _ _ pre2 [] Hpre2 eq_refl Hev2).
    split; [now apply snapshot_then_metadata_attach |].
    split; [now apply snapshot_then_metadata_attach |].
    split; [intros _; exists ev1, (attached_metadata SESSION_FOLDER sid df filename md);
            repeat split; auto using attached_has_data |].
    split; [intros _; exists ev2, (updated_metadata SESSION_FOLDER now sid df md);
            repeat split; auto using updated_has_data |].
    exact Hkeep.
Qed.


(** *** Loading a dataset *)


Lemma path_exists_step p w w' added :
  store_step w w' added -> path_exists p w' = path_exists p w.
Proof. intros (Hf & Hd & _). unfold path_exists. now rewrite Hf, Hd. Qed.

(** The load up to the point where the binary file is chosen. *)
Lemma get_session_data_choice now sid w md :
  startswith "sample-" sid = false ->
  persisted_metadata sid w = Some md ->
  md <> ∅ ->
  has_data_flag md = true ->
  exists w1 added,
    store_step w w1 added
    /\ get_session_data SESSION_FOLDER now sid w
       = match binary_path SESSION_FOLDER sid md w with
         | None =>
             (Raise (ValueError ("Data file not found for session " +:+ sid)), w1)
         | Some p =>
             try_except (pickle_load p)
               (fun e =>
                  w' <- get_world ;;
                  if path_exists (csv_path_of SESSION_FOLDER sid) w'
                  then read_csv (csv_path_of SESSION_FOLDER sid)
                  else raise (ValueError ("Failed to load data for session "
                                          +:+ sid +:+ ": " +:+ exc_message e))) w1
         end.
Proof.
  intros Hs Hmd Hne Hflag.
  destruct (get_session_metadata_step now sid w Hs)
    as (w1 & added & Hget & Hstep & _).
  exists w1, added. split; [exact Hstep |].
  unfold get_session_data. rewrite sample_guard, Hs.
  unfold bind at 1. rewrite Hget, Hmd, (no_metadata_found md Hne).
  change (default ∅ (Some md)) with md. fold (has_data_flag md). rewrite Hflag.
  cbn [negb]. unfold bind at 1, get_world at 1. unfold binary_path.
  rewrite <- (path_exists_step (pickle_path_of SESSION_FOLDER sid) w w1 added Hstep).
  destruct (recorded_path md) as [p|]; cbn [default].
  - rewrite <- (path_exists_step p w w1 added Hstep).
    destruct (path_exists p w1); cbn [negb andb]; [reflexivity |].
    destruct (path_exists (pickle_path_of SESSION_FOLDER sid) w1);
      cbn [negb]; reflexivity.
  - destruct (path_exists (pickle_path_of SESSION_FOLDER sid) w1);
      cbn [negb andb]; reflexivity.
Qed.

Lemma load_binary now sid w md p df :
  startswith "sample-" sid = false ->
  persisted_metadata sid w = Some md -> md <> ∅ -> has_data_flag md = true ->
  binary_path SESSION_FOLDER sid md w = Some p ->
  files w !! p = Some (PickleOf df) ->
  exists w', get_session_data SESSION_FOLDER now sid w = (Ok df, w').
Proof.
  intros Hs Hmd Hne Hflag Hp Hfile.
  destruct (get_session_data_choice now sid w md Hs Hmd Hne Hflag)
    as (w1 & added & (Hf & _) & Hrun).
  rewrite Hrun, Hp. run. rewrite Hf, Hfile. eexists. reflexivity.
Qed.

Lemma load_text now sid w md p header records :
  startswith "sample-" sid = false ->
  persisted_metadata sid w = Some md -> md <> ∅ -> has_data_flag md = true ->
  binary_path SESSION_FOLDER sid md w = Some p ->
  (forall df, files w !! p <> Some (PickleOf df)) ->
  files w !! csv_path_of SESSION_FOLDER sid = Some (CsvOf header records) ->
  exists w',
    get_session_data SESSION_FOLDER now sid w = (Ok (parse_csv header records), w').
Proof.
  intros Hs Hmd Hne Hflag Hp Hbad Hcsv.
  destruct (get_session_data_choice now sid w md Hs Hmd Hne Hflag)
    as (w1 & added & (Hf & Hd & _) & Hrun).
  rewrite Hrun, Hp. run. rewrite Hf.
  destruct (files w !! p) as [[df | h r |]|] eqn:Hfile;
    [exfalso; now apply (Hbad df) | | |];
    unfold path_exists; cbn [files dirs]; rewrite Hcsv;
    rewrite bool_decide_true by eauto; cbn [orb files];
    rewrite Hcsv; eexists; reflexivity.
Qed.

Lemma load_absent now sid w md :
  startswith "sample-" sid = false ->
  persisted_metadata sid w = Some md -> md <> ∅ -> has_data_flag md = true ->
  binary_path SESSION_FOLDER sid md w = None ->
  exists w',
    get_session_data SESSION_FOLDER now sid w
    = (Raise (ValueError ("Data file not found for session " +:+ sid)), w').
Proof.
  intros Hs Hmd Hne Hflag Hp.
  destruct (get_session_data_choice now sid w md Hs Hmd Hne Hflag)
    as (w1 & added & _ & Hrun).
  rewrite Hrun, Hp. eexists. reflexivity.
Qed.


Lemma path_join_truthy d name :
  truthy name = true -> truthy (path_join d name) = true.
Proof.
  intros Hn. unfold path_join.
  destruct (startswith "/" name); [exact Hn |].
  destruct (negb (truthy d) || ends_with_slash d).
  - destruct d; [exact Hn | reflexivity].
  - destruct d; reflexivity.
Qed.

Lemma path_join_inj d a b :
  startswith "/" a = false -> startswith "/" b = false ->
  path_join d a = path_join d b -> a = b.
Proof.
  intros Ha Hb. unfold path_join. rewrite Ha, Hb.
  destruct (negb (truthy d) || ends_with_slash d); intros H.
  - now apply String.app_inj in H.
  - apply String.app_inj in H. simpl in H. now injection H.
Qed.

Lemma snapshot_paths_differ sid :
  csv_path_of SESSION_FOLDER sid <> pickle_path_of SESSION_FOLDER sid.
Proof.
  unfold csv_path_of, pickle_path_of. intros H.
  apply path_join_inj in H; [discriminate | reflexivity | reflexivity].
Qed.

Lemma attached_is_found sid df filename md :
  attached_metadata SESSION_FOLDER sid df filename md <> ∅.
Proof.
  intros H. pose proof (attached_has_data sid df filename md) as Hd.
  rewrite H in Hd. discriminate.
Qed.

Lemma attached_records_path sid df filename md :
  recorded_path (attached_metadata SESSION_FOLDER sid df filename md)
  = Some (pickle_path_of SESSION_FOLDER sid).
Proof.
  unfold recorded_path.
  assert (H : attached_metadata SESSION_FOLDER sid df filename md !! "file_path"
              = Some (MStr (pickle_path_of SESSION_FOLDER sid))).
  { unfold attached_metadata. apply lookup_union_Some_l. reflexivity. }
  rewrite H. unfold pickle_path_of. now rewrite path_join_truthy.
Qed.

(** C9 (amended): for a session that exists and whose id does not start with
    "sample-", [add_session_data] followed by [get_session_data] returns the
    dataset that was attached: the same rows and columns, hence the same row
    count, column count and column order. *)
Theorem attach_then_load_returns_dataset :
  forall (now1 now2 : Z) (sid : string) (df : DataFrame)
         (filename : option string) (w : World) (md : gmap string meta_value),
    startswith "sample-" sid = false ->
    persisted_metadata sid w = Some md ->
    md <> ∅ ->
    exists w1 w2 loaded,
      add_session_data SESSION_FOLDER now1 sid df filename w = (Ok sid, w1)
      /\ get_session_data SESSION_FOLDER now2 sid w1 = (Ok loaded, w2)
      /\ loaded = df
      /\ n_rows loaded = n_rows df
      /\ n_columns loaded = n_columns df
      /\ columns loaded = columns df.
Proof.
  intros now1 now2 sid df filename w md Hs Hmd Hne.
  destruct (add_session_data_spec now1 sid df filename w md Hs Hmd Hne)
    as (w1 & pre & ev & post & Hadd & _ & _ & _ & _ & Hpm & Hfiles & _).
  assert (Hfile : files w1 !! pickle_path_of SESSION_FOLDER sid = Some (PickleOf df)).
  { rewrite Hfiles, lookup_insert_ne by apply snapshot_paths_differ.
    apply lookup_insert_eq. }
  assert (Hpath : binary_path SESSION_FOLDER sid (attached_metadata SESSION_FOLDER sid df filename md) w1
                  = Some (pickle_path_of SESSION_FOLDER sid)).
  { unfold binary_path. rewrite attached_records_path.
    unfold path_exists. rewrite Hfile. now rewrite bool_decide_true by eauto. }
  destruct (load_binary now2 sid w1 _ _ df Hs Hpm
              (attached_is_found sid df filename md)
              ltac:(unfold has_data_flag; now rewrite attached_has_data)
              Hpath Hfile) as (w2 & Hload).
  exists w1, w2, df. repeat split; assumption.
Qed.

(** C3 (amended): for a session with data whose id does not start with
    "sample-": when the binary snapshot file exists but does not unpickle and
    the text snapshot exists, the load returns the frame read from the text
    snapshot, its column types inferred from the literal fields; when the
    binary snapshot unpickles, the load returns that frame; in both cases the
    result is the bare frame. When no binary snapshot file exists the load
    fails with "Data file not found", whether or not a text snapshot
    exists. *)
Theorem text_fallback_only_when_unreadable :
  forall (now : Z) (sid : string) (w : World) (md : gmap string meta_value),
    startswith "sample-" sid = false ->
    persisted_metadata sid w = Some md ->
    md <> ∅ ->
    has_data_flag md = true ->
    (forall p header records,
       binary_path SESSION_FOLDER sid md w = Some p ->
       (forall df, files w !! p <> Some (PickleOf df)) ->
       files w !! csv_path_of SESSION_FOLDER sid = Some (CsvOf header records) ->
       exists w',
         get_session_data SESSION_FOLDER now sid w
         = (Ok (parse_csv header records), w'))
    /\ (forall p df,
          binary_path SESSION_FOLDER sid md w = Some p ->
          files w !! p = Some (PickleOf df) ->
          exists w', get_session_data SESSION_FOLDER now sid w = (Ok df, w'))
    /\ (binary_path SESSION_FOLDER sid md w = None ->
        exists w',
          get_session_data SESSION_FOLDER now sid w
          = (Raise (ValueError ("Data file not found for session " +:+ sid)), w')).
Proof.
  intros now sid w md Hs Hmd Hne Hflag. split; [| split].
  - intros p header records Hp Hbad Hcsv.
    exact (load_text now sid w md p header records Hs Hmd Hne Hflag Hp Hbad Hcsv).
  - intros p df Hp Hfile.
    exact (load_binary now sid w md p df Hs Hmd Hne Hflag Hp Hfile).
  - intros Hp. exact (load_absent now sid w md Hs Hmd Hne Hflag Hp).
Qed.


(** *** Sample sessions *)

Lemma get_session_metadata_returns now sid w :
  exists found w1, get_session_metadata now sid w = (Ok found, w1).
Proof.
  unfold get_session_metadata.
  destruct (mongo w) as [db|]; [| eexists _, _; reflexivity].
  destruct (sessions_collection db !! sid); [eexists _, _; reflexivity |].
  destruct (startswith "sample-" sid); [| eexists _, _; reflexivity].
  unfold bind, ret.
  destruct (save_session_metadata_step now sid sample_stub w)
    as (ok & w1 & ev & Hsave & _).
  rewrite Hsave. eexists _, _; reflexivity.
Qed.





(** *** Not found, and expiration *)

Lemma get_session_outcome now sid w :
  startswith "sample-" sid = false ->
  if no_metadata (persisted_metadata sid w)
  then exists msg,
         (get_session SESSION_FOLDER now sid w).1 = Raise (KeyError msg)
  else exists info,
         (get_session SESSION_FOLDER now sid w).1 = Ok info.
Proof.
  intros Hs. unfold get_session. rewrite sample_guard, Hs. run.
  pose proof (get_session_metadata_plain now sid w Hs) as Hg.
  destruct (get_session_metadata now sid w) as [r w1]. simpl in Hg. subst r.
  destruct (no_metadata (persisted_metadata sid w)); simpl.
  - eexists; reflexivity.
  - destruct (path_exists (session_dir_of SESSION_FOLDER sid) w1);
      eexists; reflexivity.
Qed.

Lemma ttl_sweep_lookup now sid w db doc :
  mongo w = Some db ->
  sessions_collection db !! sid = Some doc ->
  persisted_expires sid (ttl_sweep now w)
  = if decide (now < expires_at doc + seven_days)%Z
    then Some (expires_at doc) else None.
Proof.
  intros Hdb Hdoc. unfold ttl_sweep, persisted_expires, set_sessions.
  rewrite Hdb. simpl.
  destruct (decide (now < expires_at doc + seven_days)%Z) as [Hlt | Hge].
  - erewrite (proj2 (map_lookup_filter_Some _ _ sid doc)); [reflexivity |].
    split; [exact Hdoc | exact Hlt].
  - rewrite (proj2 (map_lookup_filter_None _ _ sid)); [reflexivity |].
    right. intros x Hx. rewrite Hdoc in Hx. injection Hx as <-. exact Hge.
Qed.


(** C2 (amended): for a session id that does not start with "sample-",
    [get_session] fails with [KeyError] exactly when the stores hold no
    (non-empty) metadata for it. The access never compares [expires_at] with
    the clock: a record the durable store still holds is returned and renewed
    whatever its [expires_at]. Records go away only through the TTL index,
    which keeps a record until seven days after its [expires_at]. *)
Theorem get_session_fails_exactly_without_record :
  forall (now : Z) (sid : string) (w : World),
    startswith "sample-" sid = false ->
    (no_metadata (persisted_metadata sid w) = true ->
       exists msg, (get_session SESSION_FOLDER now sid w).1 = Raise (KeyError msg))
    /\ (no_metadata (persisted_metadata sid w) = false ->
          exists info, (get_session SESSION_FOLDER now sid w).1 = Ok info)
    /\ (forall db doc,
          mongo w = Some db ->
          sessions_collection db !! sid = Some doc ->
          doc_metadata doc <> ∅ ->
          (exists info, (get_session SESSION_FOLDER now sid w).1 = Ok info)
          /\ persisted_expires sid (get_session SESSION_FOLDER now sid w).2
             = Some (now + seven_days)%Z)
    /\ (forall db doc,
          mongo w = Some db ->
          sessions_collection db !! sid = Some doc ->
          persisted_expires sid (ttl_sweep now w)
          = if decide (now < expires_at doc + seven_days)%Z
            then Some (expires_at doc) else None).
Proof.
  intros now sid w Hs.
  pose proof (get_session_outcome now sid w Hs) as Hout.
  split; [| split; [| split]].
  - intros Hno. now rewrite Hno in Hout.
  - intros Hno. now rewrite Hno in Hout.
  - intros db doc Hdb Hdoc Hmd. split.
    + assert (Hno : no_metadata (persisted_metadata sid w) = false).
      { unfold persisted_metadata. rewrite Hdb, Hdoc. simpl.
        now apply bool_decide_eq_false. }
      now rewrite Hno in Hout.
    + apply (get_session_renews now sid w (expires_at doc)).
      unfold persisted_expires. rewrite Hdb. simpl. now rewrite Hdoc.
  - intros db doc Hdb Hdoc. exact (ttl_sweep_lookup now sid w db doc Hdb Hdoc).
Qed.


End StoreFacts.

Section StoreExamples.
Import Py Fs Codec Mongo.


(** C2, at the session created at time 0 and read one day later. *)
Lemma get_session_fails_exactly_witness :
  (exists msg, (get_session "sessions" one_day "nobody" created_world).1
               = Raise (KeyError msg))
  /\ (exists info, (get_session "sessions" one_day "u1" created_world).1 = Ok info)
  /\ persisted_expires "u1" (get_session "sessions" one_day "u1" created_world).2
     = Some (one_day + seven_days)%Z.
Proof.
  destruct (get_session_fails_exactly_without_record "sessions" one_day "nobody"
              created_world eq_refl) as (Hmiss & _).
  destruct (get_session_fails_exactly_without_record "sessions" one_day "u1"
              created_world eq_refl) as (_ & Hfound & _).
  split; [apply Hmiss; vm_compute; reflexivity |].
  split; [apply Hfound; vm_compute; reflexivity |].
  vm_compute. reflexivity.
Defined.

(** C2 (counterexample): the session created at time 0 expires at seven days;
    read at eight days, also after the TTL task has run at that moment, it is
    returned as a live session. *)
Lemma expired_record_is_returned :
  startswith "sample-" "u1" = false
  /\ persisted_expires "u1" created_world = Some seven_days
  /\ (seven_days < 8 * one_day)%Z
  /\ succeeded (get_session "sessions" (8 * one_day) "u1" created_world).1 = true
  /\ succeeded (get_session "sessions" (8 * one_day) "u1"
                  (ttl_sweep (8 * one_day) created_world)).1 = true.
Proof. repeat split; vm_compute; reflexivity. Qed.



(** C3, at the session "u1" whose pickle no longer unpickles. *)
Lemma text_fallback_witness :
  exists w',
    get_session_data "sessions" (2 * one_day) "u1" corrupt_world
    = (Ok (parse_csv ["name"; "n"] [["Ada"; "1"]]), w').
Proof.
  destruct (text_fallback_only_when_unreadable "sessions" (2 * one_day) "u1"
              corrupt_world
              (default ∅ (persisted_metadata "u1" corrupt_world)))
    as (Htext & _).
  - reflexivity.
  - vm_compute. reflexivity.
  - intros H. apply (f_equal (fun m => m !! "has_data")) in H.
    vm_compute in H. discriminate.
  - vm_compute. reflexivity.
  - apply (Htext "sessions/u1/data.pkl").
    + vm_compute. reflexivity.
    + intros df H. vm_compute in H. discriminate.
    + vm_compute. reflexivity.
Defined.

(** C3 (counterexample): with the binary snapshot absent and the text
    snapshot present the load fails instead of falling back; and the load from
    the text snapshot returns the very value the load from the binary snapshot
    returns, so nothing in the result tells the two apart. *)
Lemma absent_binary_fails_and_no_provenance :
  files absent_world !! "sessions/u1/data.csv"
  = Some (CsvOf ["name"; "n"] [["Ada"; "1"]])
  /\ (get_session_data "sessions" (2 * one_day) "u1" absent_world).1
     = Raise (ValueError "Data file not found for session u1")
  /\ (get_session_data "sessions" (2 * one_day) "u1" corrupt_world).1
     = Ok demo_frame
  /\ (get_session_data "sessions" (2 * one_day) "u1" attached_world).1
     = Ok demo_frame.
Proof. repeat split; vm_compute; reflexivity. Qed.

(** The re-inference changes types without notice: a text column of digit
    strings comes back from the text snapshot as integers. *)
Lemma reinferred_types_differ :
  parse_csv ["code"] [["007"]] = mkFrame ["code"] [Int64] [[VInt 7]]
  /\ to_csv codes_frame = CsvOf ["code"] [["007"]].
Proof. split; vm_compute; reflexivity. Qed.

(** C7, at the session "u1" and [demo_frame]. *)
Lemma snapshot_writes_witness :
  exists ev md,
    persist_events
      (new_events created_world
         (add_session_data "sessions" one_day "u1" demo_frame (Some "demo.csv")
            created_world).2)
    = [EvFileWrite "sessions/u1/data.pkl" (PickleOf demo_frame);
       EvFileWrite "sessions/u1/data.csv" (to_csv demo_frame); ev]
    /\ is_metadata_event ev = true
    /\ persisted_metadata "u1" attached_world = Some md
    /\ md !! "has_data" = Some (MBool true).
Proof.
  destruct (snapshot_writes_precede_metadata "sessions" one_day "u1" demo_frame
              (Some "demo.csv") created_world eq_refl)
    as (_ & _ & Hattach & _).
  destruct (Hattach ltac:(vm_compute; reflexivity)) as (ev & md & H1 & H2 & H3 & H4).
  exists ev, md. repeat split; assumption.
Defined.

(** C7 (counterexample): for the id "sample-1", not seen before, the metadata
    lookup of [update_session_data] first saves metadata with
    [has_data = true]; the snapshot writes come after it. And
    [add_session_data], finding the directory of "sample-1", saves that
    metadata and writes no snapshot at all. *)
Lemma sample_metadata_precedes_snapshot :
  take 3 (persist_events
            (new_events empty_world
               (update_session_data "sessions" 0 "sample-1" demo_frame
                  empty_world).2))
  = [EvMetadataSaved Durable "sample-1" sample_stub;
     EvFileWrite "sessions/sample-1/data.pkl" (PickleOf demo_frame);
     EvFileWrite "sessions/sample-1/data.csv" (to_csv demo_frame)]
  /\ sample_stub !! "has_data" = Some (MBool true)
  /\ persist_events
       (new_events sample_dir_world
          (add_session_data "sessions" 0 "sample-1" demo_frame None
             sample_dir_world).2)
     = [EvMetadataSaved Durable "sample-1" sample_stub]
  /\ persisted_has_data "sample-1"
       (add_session_data "sessions" 0 "sample-1" demo_frame None
          sample_dir_world).2 = true
  /\ files (add_session_data "sessions" 0 "sample-1" demo_frame None
              sample_dir_world).2 = ∅.
Proof. repeat split; vm_compute; reflexivity. Qed.

(** C9, at the session "u1" and [demo_frame]. *)
Lemma attach_then_load_witness :
  exists w1 w2,
    add_session_data "sessions" one_day "u1" demo_frame (Some "demo.csv")
      created_world = (Ok "u1", w1)
    /\ get_session_data "sessions" (2 * one_day) "u1" w1 = (Ok demo_frame, w2).
Proof.
  destruct (attach_then_load_returns_dataset "sessions" one_day (2 * one_day)
              "u1" demo_frame (Some "demo.csv") created_world
              (default ∅ (persisted_metadata "u1" created_world)))
    as (w1 & w2 & loaded & Hadd & Hload & -> & _).
  - reflexivity.
  - vm_compute. reflexivity.
  - intros H. apply (f_equal (fun m => m !! "has_data")) in H.
    vm_compute in H. discriminate.
  - eauto.
Defined.

(** C9 (counterexample): attached under the id "sample-1", the one-row frame
    is dropped; the load returns the sample frame of 5 rows and 10 columns. *)
Lemma sample_session_drops_attached_dataset :
  (add_session_data "sessions" 0 "sample-1" demo_frame (Some "demo.csv")
     empty_world).1 = Ok "sample-1"
  /\ (get_session_data "sessions" one_day "sample-1"
        (add_session_data "sessions" 0 "sample-1" demo_frame (Some "demo.csv")
           empty_world).2).1 = Ok SAMPLE_DATA
  /\ shape SAMPLE_DATA = (5, 10)
  /\ shape demo_frame = (1, 2).
Proof. repeat split; vm_compute; reflexivity. Qed.


End StoreExamples.

(** * Facts about the routes' checks *)

Section UploadChecks.
Import Py PyStr DatasetRoutes.

Lemma prefix_nil s : String.prefix EmptyString s = true.
Proof. destruct s; reflexivity. Qed.

Lemma contains_dot_cons c s :
  contains "." (String c s) = Ascii.eqb c "."%char || contains "." s.
Proof.
  change (contains "." (String c s))
    with ((if ascii_dec "."%char c then String.prefix EmptyString s else false)
          || contains "." s).
  destruct (ascii_dec "."%char c) as [<- | Hne].
  - now rewrite prefix_nil.
  - destruct (Ascii.eqb_spec c "."%char); [congruence | reflexivity].
Qed.

Lemma after_last_dot_none s :
  after_last_dot s = None <-> contains "." s = false.
Proof.
  induction s as [|c s IH]; [split; reflexivity |].
  rewrite contains_dot_cons. simpl.
  destruct (after_last_dot s) as [ext|].
  - split; [discriminate |]. intros H. apply orb_false_elim in H as [_ H].
    apply IH in H. discriminate.
  - rewrite (proj1 IH eq_refl), orb_false_r.
    destruct (Ascii.eqb c "."); split; congruence.
Qed.

(** The extension of a name put together from a stem and an extension
    without a dot. *)
Lemma after_last_dot_app stem ext :
  contains "." ext = false ->
  after_last_dot (stem +:+ "." +:+ ext) = Some ext.
Proof.
  intros Hno. apply after_last_dot_none in Hno.
  induction stem as [|c stem IH]; simpl.
  - now rewrite Hno.
  - simpl in IH. now rewrite IH.
Qed.

Lemma after_last_dot_split s ext :
  after_last_dot s = Some ext ->
  exists stem, s = stem +:+ "." +:+ ext /\ contains "." ext = false.
Proof.
  induction s as [|c s IH]; [discriminate |]. simpl.
  destruct (after_last_dot s) as [ext'|] eqn:E.
  - intros [= <-]. destruct (IH eq_refl) as (stem & -> & Hno).
    exists (String c stem). split; [reflexivity | exact Hno].
  - destruct (Ascii.eqb_spec c "."%char) as [-> | Hne]; [| discriminate].
    intros [= <-]. exists EmptyString. split; [reflexivity |].
    now apply after_last_dot_none.
Qed.

(** X1: [allowed_file] looks at what follows the last dot of the name, in any
    letter case: a name is accepted exactly when it is a stem, a dot and an
    extension without a dot that lower-cased is one of csv, xls and xlsx. A
    name without a dot, and a name whose last extension is another one, is
    rejected whatever comes before. *)
Theorem allowed_file_last_extension :
  forall filename : string,
    allowed_file filename = true <->
    exists stem ext,
      filename = stem +:+ "." +:+ ext
      /\ contains "." ext = false
      /\ lower ext ∈ ALLOWED_EXTENSIONS.
Proof.
  intros filename. unfold allowed_file. split.
  - intros H. apply andb_prop in H as [_ H].
    destruct (after_last_dot filename) as [ext|] eqn:E; [| discriminate].
    apply after_last_dot_split in E as (stem & -> & Hno).
    exists stem, ext. repeat split; [exact Hno |].
    now apply bool_decide_eq_true in H.
  - intros (stem & ext & -> & Hno & Hin).
    rewrite (after_last_dot_app stem ext Hno).
    rewrite (bool_decide_true _ Hin), andb_true_r.
    destruct (contains "." (stem +:+ "." +:+ ext)) eqn:E; [reflexivity |].
    apply after_last_dot_none in E.
    rewrite (after_last_dot_app stem ext Hno) in E. discriminate.
Qed.

End UploadChecks.

(** * Facts about the life of a session *)

Section SessionLife.
Import Py PyStr Fs Codec Mongo Disk.

Variable SESSION_FOLDER : string.


Lemma save_session_metadata_spec now sid md w :
  exists ok w1 ev,
    save_session_metadata now sid md w = (Ok ok, w1)
    /\ store_step w w1 [ev]
    /\ is_metadata_event ev = true
    /\ (store_accepts w -> persisted_metadata sid w1 = Some md /\ store_accepts w1)
    /\ (~ store_accepts w ->
        mongo w1 = None /\ IN_MEMORY_SESSIONS w1 = None).
Proof.
  unfold save_session_metadata, store_step, store_accepts, persisted_metadata,
    memory_lookup.
  destruct (mongo w) as [db|] eqn:Hdb.
  - eexists _, _, _. split; [reflexivity |].
    unfold set_sessions, add_event. rewrite Hdb. simpl. rewrite lookup_insert_eq.
    split; [repeat split; reflexivity |]. split; [reflexivity |].
    split.
    + intros _. split; [destruct (sessions_collection db !! sid); reflexivity |].
      left. discriminate.
    + intros H. exfalso. apply H. left. discriminate.
  - destruct (IN_MEMORY_SESSIONS w) as [mem|] eqn:Hmem.
    + eexists _, _, _. split; [reflexivity |].
      unfold set_memory, add_event. simpl. rewrite Hdb. simpl.
      rewrite lookup_insert_eq.
      split; [repeat split; reflexivity |]. split; [reflexivity |].
      split.
      * intros _. split; [reflexivity |]. right. discriminate.
      * intros H. exfalso. apply H. right. discriminate.
    + eexists _, _, _. split; [reflexivity |].
      unfold add_event. simpl. rewrite Hdb, Hmem.
      split; [repeat split; reflexivity |]. split; [reflexivity |].
      split.
      * intros [H | H]; contradiction.
      * intros _. split; reflexivity.
Qed.

(** [create_session], spelled out. *)
Lemma create_session_spec now fresh_id w :
  exists w1 ev,
    create_session SESSION_FOLDER now fresh_id w = (Ok fresh_id, w1)
    /\ files w1 = files w
    /\ dirs w1 = {[session_dir_of SESSION_FOLDER fresh_id]} ∪ dirs w
    /\ events w1
       = events w ++ [EvMakedirs (session_dir_of SESSION_FOLDER fresh_id); ev]
    /\ is_metadata_event ev = true
    /\ (store_accepts w ->
        persisted_metadata fresh_id w1 = Some (created_metadata now)
        /\ store_accepts w1)
    /\ (~ store_accepts w -> mongo w1 = None /\ IN_MEMORY_SESSIONS w1 = None).
Proof.
  unfold create_session. unfold bind, makedirs, ret. cbv beta iota.
  match goal with
  | |- context [save_session_metadata now fresh_id ?md ?w0] =>
      destruct (save_session_metadata_spec now fresh_id md w0)
        as (ok & w1 & ev & Hsave & (Hf & Hd & He) & Hev & Hacc & Hrej)
  end.
  rewrite Hsave. exists w1, ev.
  unfold store_accepts in *.
  cbn [files dirs events mongo IN_MEMORY_SESSIONS] in *.
  split; [reflexivity |]. split; [exact Hf |]. split; [exact Hd |].
  split; [now rewrite He, <- app_assoc |]. split; [exact Hev |].
  split; [exact Hacc | exact Hrej].
Qed.

Lemma created_metadata_found now : created_metadata now <> ∅.
Proof. intros H. apply (f_equal (fun m => m !! "has_data")) in H. discriminate. Qed.


Lemma get_session_data_empty now sid w md :
  startswith "sample-" sid = false ->
  persisted_metadata sid w = Some md ->
  md <> ∅ ->
  has_data_flag md = false ->
  exists w',
    get_session_data SESSION_FOLDER now sid w
    = (Raise (ValueError ("No data associated with session " +:+ sid)), w')
    /\ files w' = files w.
Proof.
  intros Hs Hmd Hne Hflag.
  destruct (get_session_metadata_step now sid w Hs)
    as (w1 & added & Hget & (Hf & _) & _).
  unfold get_session_data. rewrite sample_guard, Hs.
  unfold bind at 1. rewrite Hget, Hmd, (no_metadata_found md Hne).
  change (default ∅ (Some md)) with md. fold (has_data_flag md). rewrite Hflag.
  cbn [negb]. unfold raise. exists w1. split; [reflexivity | exact Hf].
Qed.

Lemma get_session_has_data now sid w md :
  startswith "sample-" sid = false ->
  persisted_metadata sid w = Some md ->
  md <> ∅ ->
  exists info w',
    get_session SESSION_FOLDER now sid w = (Ok info, w')
    /\ info !! "has_data" = Some (IVal (default (MBool false) (md !! "has_data")))
    /\ files w' = files w
    /\ persisted_metadata sid w' = Some md
    /\ path_exists (session_dir_of SESSION_FOLDER sid) w' = true.
Proof.
  intros Hs Hmd Hne.
  destruct (get_session_metadata_step now sid w Hs)
    as (w1 & added & Hget & (Hf & Hd & He) & _ & Hpm & _).
  unfold get_session. rewrite sample_guard, Hs.
  unfold bind at 1. rewrite Hget, Hmd, (no_metadata_found md Hne).
  change (default ∅ (Some md)) with md.
  unfold bind, get_world, makedirs, ret.
  assert (Hinfo : forall (rest : gmap string info_value),
             rest !! "has_data"
             = Some (IVal (default (MBool false) (md !! "has_data"))) ->
             ((IVal <$> md) ∪ rest) !! "has_data"
             = Some (IVal (default (MBool false) (md !! "has_data")))).
  { intros rest Hrest. rewrite lookup_union, lookup_fmap, Hrest.
    now destruct (md !! "has_data"). }
  destruct (path_exists (session_dir_of SESSION_FOLDER sid) w1) eqn:Hdir;
    cbn [negb]; eexists _, _; (split; [reflexivity |]).
  - split; [apply Hinfo; reflexivity |]. split; [exact Hf |].
    split; [now rewrite Hpm | exact Hdir].
  - split; [apply Hinfo; reflexivity |]. split; [exact Hf |].
    split; [now rewrite <- Hmd, <- Hpm |].
    unfold path_exists. cbn [dirs].
    rewrite (bool_decide_true (_ ∈ _))
      by (apply elem_of_union_l, elem_of_singleton; reflexivity).
    apply orb_true_r.
Qed.

(** X2: [create_session] returns the identifier it drew, whatever the stores
    do. When a store takes the record, the new session is found with
    [has_data] false, and loading its dataset fails with "No data associated
    with session"; when neither the database nor the fallback map takes it, the
    identifier is handed out all the same and the session is not found
    afterwards. *)
Theorem created_session_is_empty :
  forall (now now' : Z) (fresh_id : string) (w : World),
    startswith "sample-" fresh_id = false ->
    exists w1,
      create_session SESSION_FOLDER now fresh_id w = (Ok fresh_id, w1)
      /\ (store_accepts w ->
          persisted_metadata fresh_id w1 = Some (created_metadata now)
          /\ (exists info w2,
                get_session SESSION_FOLDER now' fresh_id w1 = (Ok info, w2)
                /\ info !! "has_data" = Some (IVal (MBool false)))
          /\ (exists w2,
                get_session_data SESSION_FOLDER now' fresh_id w1
                = (Raise (ValueError ("No data associated with session "
                                      +:+ fresh_id)), w2)))
      /\ (~ store_accepts w ->
          exists msg,
            (get_session SESSION_FOLDER now' fresh_id w1).1 = Raise (KeyError msg)).
Proof.
  intros now now' fresh_id w Hs.
  destruct (create_session_spec now fresh_id w)
    as (w1 & ev & Hrun & _ & _ & _ & _ & Hacc & Hrej).
  exists w1. split; [exact Hrun |]. split.
  - intros H. destruct (Hacc H) as [Hpm _]. split; [exact Hpm |]. split.
    + destruct (get_session_has_data now' fresh_id w1 _ Hs Hpm
                  (created_metadata_found now)) as (info & w2 & Hget & Hflag & _).
      exists info, w2. split; [exact Hget | exact Hflag].
    + destruct (get_session_data_empty now' fresh_id w1 _ Hs Hpm
                  (created_metadata_found now) eq_refl) as (w2 & Hload & _).
      exists w2. exact Hload.
  - intros H. destruct (Hrej H) as [Hm Hmem].
    pose proof (get_session_outcome SESSION_FOLDER now' fresh_id w1 Hs) as Hout.
    assert (Hno : persisted_metadata fresh_id w1 = None).
    { unfold persisted_metadata, memory_lookup. now rewrite Hm, Hmem. }
    rewrite Hno in Hout. exact Hout.
Qed.

(** *** Deleting a session *)

Lemma prefix_app (a b : string) : String.prefix a (a +:+ b) = true.
Proof.
  induction a as [|c a IH]; [apply prefix_nil |].
  change (String.prefix (String c a) (String c a +:+ b))
    with (if ascii_dec c c then String.prefix a (a +:+ b) else false).
  destruct (ascii_dec c c); [exact IH | contradiction].
Qed.





(** *** Saving and reading metadata *)

(** X4: what [save_session_metadata] saved is what [get_session_metadata]
    returns next, for every session id: the saved dictionary replaces the
    stored one as a whole (nothing of the older metadata is merged in). In the
    database an existing record keeps its [created_at]; both calls leave
    [expires_at] at seven days from the call. *)
Theorem saved_metadata_is_read_back :
  forall (now now' : Z) (sid : string) (md : gmap string meta_value) (w : World),
    store_accepts w ->
    exists w1 w2,
      save_session_metadata now sid md w = (Ok true, w1)
      /\ get_session_metadata now' sid w1 = (Ok (Some md), w2)
      /\ (forall db, mongo w = Some db ->
            exists db1 doc1,
              mongo w1 = Some db1
              /\ sessions_collection db1 !! sid = Some doc1
              /\ doc_metadata doc1 = md
              /\ created_at doc1
                 = match sessions_collection db !! sid with
                   | Some doc => created_at doc
                   | None => now
                   end
              /\ expires_at doc1 = (now + seven_days)%Z
              /\ persisted_expires sid w2 = Some (now' + seven_days)%Z).
Proof.
  intros now now' sid md w Hacc.
  unfold save_session_metadata, get_session_metadata.
  destruct (mongo w) as [db|] eqn:Hdb.
  - destruct (sessions_collection db !! sid) as [doc|] eqn:Hdoc.
    all: eexists _, _; (split; [reflexivity |]).
    all: unfold set_sessions, add_event; rewrite Hdb.
    all: cbn [mongo sessions_collection]; rewrite lookup_insert_eq.
    all: split; [reflexivity |].
    all: intros db' [= <-]; eexists _, _; (split; [reflexivity |]).
    all: cbn [sessions_collection]; rewrite lookup_insert_eq, ?Hdoc.
    all: split; [reflexivity |].
    all: unfold persisted_expires; cbn [mongo sessions_collection]; simpl.
    all: rewrite lookup_insert_eq; repeat split; reflexivity.
  - destruct Hacc as [Hacc | Hacc]; [contradiction |].
    destruct (IN_MEMORY_SESSIONS w) as [mem|] eqn:Hmem; [| contradiction].
    eexists _, _. split; [reflexivity |].
    unfold set_memory, add_event, memory_lookup. cbn [mongo IN_MEMORY_SESSIONS].
    rewrite Hdb. simpl. rewrite lookup_insert_eq.
    split; [reflexivity |]. intros db H. discriminate.
Qed.

(** *** Updating metadata *)




Lemma file_exists p w x : files w !! p = Some x -> path_exists p w = true.
Proof.
  intros H. unfold path_exists. rewrite H.
  now rewrite bool_decide_true by eauto.
Qed.


(** *** Replacing the dataset of a sample session *)

(** X7: unlike [add_session_data], [update_session_data] does not turn aside
    for ids that start with "sample-": it writes the given frame over the
    sample session's snapshots, and the next [get_session_data] returns that
    frame in place of the sample dataset. *)
Theorem update_replaces_sample_dataset :
  forall (now now' : Z) (sid : string) (df : DataFrame) (w : World)
         (db : mongo_db),
    startswith "sample-" sid = true ->
    mongo w = Some db ->
    (forall doc, sessions_collection db !! sid = Some doc ->
                 doc_metadata doc <> ∅) ->
    exists w1 w2,
      update_session_data SESSION_FOLDER now sid df w = (Ok sid, w1)
      /\ files w1 !! pickle_path_of SESSION_FOLDER sid = Some (PickleOf df)
      /\ get_session_data SESSION_FOLDER now' sid w1 = (Ok df, w2).
Proof.
  intros now now' sid df w db Hs Hdb Hdoc.
  assert (Hget : exists md w0,
             get_session_metadata now sid w = (Ok (Some md), w0) /\ md <> ∅).
  { unfold get_session_metadata. rewrite Hdb.
    destruct (sessions_collection db !! sid) as [doc|] eqn:E.
    - eexists _, _. split; [reflexivity | now apply Hdoc].
    - rewrite Hs. unfold bind, ret.
      destruct (save_session_metadata_spec now sid sample_stub w)
        as (ok & w0 & ev & Hsave & _).
      rewrite Hsave. eexists _, _. split; [reflexivity |].
      intros H. apply (f_equal (fun m => m !! "has_data")) in H. discriminate. }
  destruct Hget as (md & w0 & Hget & Hne).
  unfold update_session_data.
  unfold bind at 1. rewrite Hget, (no_metadata_found md Hne).
  unfold bind at 1. rewrite write_snapshots_spec. cbv beta iota zeta.
  unfold bind, ret.
  match goal with
  | |- context [save_session_metadata now sid ?m ?w2] =>
      destruct (save_session_metadata_spec now sid m w2)
        as (ok & w1 & ev & Hsave & (Hf & _) & _)
  end.
  rewrite Hsave. cbn [files] in Hf.
  assert (Hfile : files w1 !! pickle_path_of SESSION_FOLDER sid
                  = Some (PickleOf df)).
  { rewrite Hf, lookup_insert_ne by apply snapshot_paths_differ.
    apply lookup_insert_eq. }
  eexists w1, _. split; [reflexivity |]. split; [exact Hfile |].
  unfold get_session_data. rewrite sample_guard, Hs.
  unfold pickle_load. unfold bind, get_world, try_except, read_file, ret.
  change (path_join (session_dir_of SESSION_FOLDER sid) "data.pkl")
    with (pickle_path_of SESSION_FOLDER sid).
  rewrite (file_exists _ w1 _ Hfile). cbn [negb files]. rewrite Hfile.
  reflexivity.
Qed.

End SessionLife.

Section SessionLifeExamples.
Import Py PyStr Fs Codec Mongo Disk.

(** X2, for the identifier "u1" created in the empty world. *)
Lemma created_session_witness :
  startswith "sample-" "u1" = false
  /\ store_accepts empty_world
  /\ exists w1,
       create_session "sessions" 0 "u1" empty_world = (Ok "u1", w1)
       /\ persisted_metadata "u1" w1 = Some (created_metadata 0)
       /\ exists w2,
            get_session_data "sessions" one_day "u1" w1
            = (Raise (ValueError "No data associated with session u1"), w2).
Proof.
  split; [reflexivity |].
  assert (Hacc : store_accepts empty_world) by (left; discriminate).
  split; [exact Hacc |].
  destruct (created_session_is_empty "sessions" 0 one_day "u1" empty_world eq_refl)
    as (w1 & Hrun & Hfound & _).
  destruct (Hfound Hacc) as (Hpm & _ & Hload).
  exists w1. split; [exact Hrun |]. split; [exact Hpm | exact Hload].
Defined.


(** X4, at the session "u1": a one-key dictionary saved over its record. *)
Lemma saved_metadata_witness :
  store_accepts attached_world
  /\ exists w1 w2,
       save_session_metadata (2 * one_day) "u1" {[ "note" := MStr "x" ]}
         attached_world = (Ok true, w1)
       /\ get_session_metadata (3 * one_day) "u1" w1
          = (Ok (Some {[ "note" := MStr "x" ]}), w2).
Proof.
  assert (Hacc : store_accepts attached_world) by (left; discriminate).
  split; [exact Hacc |].
  destruct (saved_metadata_is_read_back (2 * one_day) (3 * one_day) "u1"
              {[ "note" := MStr "x" ]} attached_world Hacc)
    as (w1 & w2 & Hsave & Hget & _).
  exists w1, w2. split; assumption.
Defined.



(** X7, at the id "sample-1" in the empty world. *)
Lemma update_replaces_sample_witness :
  exists w1 w2,
    update_session_data "sessions" 0 "sample-1" demo_frame empty_world
    = (Ok "sample-1", w1)
    /\ get_session_data "sessions" one_day "sample-1" w1 = (Ok demo_frame, w2).
Proof.
  destruct (update_replaces_sample_dataset "sessions" 0 one_day "sample-1"
              demo_frame empty_world (mkDb ∅ ∅) eq_refl eq_refl)
    as (w1 & w2 & Hrun & _ & Hload).
  - intros doc H. vm_compute in H. discriminate.
  - exists w1, w2. split; assumption.
Defined.

End SessionLifeExamples.

(** * Facts about the export to a temporary file and the import from it *)

Section TempFiles.
Import Py PyStr Fs Codec Mongo Disk.

Variable SESSION_FOLDER : string.
Variable TEMP_FOLDER : string.





End TempFiles.

Section TempFilesExamples.
Import Py PyStr Fs Codec Mongo Disk.


End TempFilesExamples.

(** * Facts about the dataset and session routes *)

Section DatasetRouteFacts.
Import Py PyStr Fs Codec Mongo Disk DatasetRoutes.

Variable SESSION_FOLDER : string.
Variable UPLOAD_FOLDER : string.

(** *** The metadata route *)




(** *** The session route *)

Lemma handle_sample_session_fresh now sid w :
  path_exists (session_dir_of SESSION_FOLDER sid) w = false ->
  exists info w',
    handle_sample_session SESSION_FOLDER now sid w = (Ok info, w')
    /\ info !! "df" = Some (IFrame SAMPLE_DATA)
    /\ path_exists (session_dir_of SESSION_FOLDER sid) w' = true.
Proof.
  intros Hdir. unfold handle_sample_session, pickle_dump.
  unfold bind, get_world, makedirs, write_file, ret. rewrite Hdir.
  cbn [negb files dirs mongo IN_MEMORY_SESSIONS events].
  match goal with
  | |- context [save_session_metadata now sid ?md ?w2] =>
      destruct (save_session_metadata_spec now sid md w2)
        as (ok & w3 & ev & Hsave & (_ & Hd & _) & _);
      rewrite Hsave
  end.
  cbn [dirs] in Hd.
  eexists _, w3. split; [reflexivity |]. split; [reflexivity |].
  unfold path_exists. rewrite Hd.
  rewrite (bool_decide_true (_ ∈ _))
    by (apply elem_of_union_l, elem_of_singleton; reflexivity).
  apply orb_true_r.
Qed.

Lemma handle_sample_session_again now sid w :
  path_exists (session_dir_of SESSION_FOLDER sid) w = true ->
  exists info w',
    handle_sample_session SESSION_FOLDER now sid w = (Ok info, w')
    /\ map_Forall (fun _ v => jsonable v = true) info
    /\ info !! "has_data" = Some (IVal (MBool true)).
Proof.
  intros Hdir. unfold handle_sample_session.
  unfold bind at 1, get_world at 1. rewrite Hdir. cbn [negb].
  destruct (get_session_metadata_returns now sid w) as (found & w1 & Hget).
  unfold bind at 1. rewrite Hget.
  assert (Hjson : forall (a b c d : meta_value) md,
             map_Forall (fun _ v => jsonable v = true)
               ({[ "id" := IVal a; "created_at" := IVal b;
                   "expires_at" := IVal c; "has_data" := IVal d;
                   "metadata" := IMetadata md ]} : gmap string info_value)).
  { intros a b c d md. repeat apply map_Forall_insert_2; try reflexivity.
    apply map_Forall_empty. }
  destruct (no_metadata found).
  - match goal with
    | |- context [save_session_metadata now sid ?md] =>
        destruct (save_session_metadata_spec now sid md w1)
          as (ok & w2 & ev & Hsave & _)
    end.
    unfold bind, ret. rewrite Hsave.
    eexists _, _. split; [reflexivity |]. split; [apply Hjson | reflexivity].
  - unfold bind, ret.
    eexists _, _. split; [reflexivity |]. split; [apply Hjson | reflexivity].
Qed.

(** X10: the first request for a sample session that is not on disk yet is
    answered 500: [get_session] then returns the dictionary
    [handle_sample_session] built on creating the session, which holds the
    frame under [df], and [jsonify] cannot write a frame. The same request
    made again is answered with the session, [has_data] true. *)
Theorem first_view_of_sample_session_fails :
  forall (now now' : Z) (sid : string) (w : World),
    startswith "sample-" sid = true ->
    path_exists (session_dir_of SESSION_FOLDER sid) w = false ->
    exists w1 w2 session,
      get_session_info SESSION_FOLDER now sid w
      = (Ok (SessionServerError
               "Error getting session info: Object of type DataFrame is not JSON serializable"),
         w1)
      /\ get_session_info SESSION_FOLDER now' sid w1 = (Ok (SessionOk session), w2)
      /\ session !! "has_data" = Some (IVal (MBool true)).
Proof.
  intros now now' sid w Hs Hdir.
  destruct (handle_sample_session_fresh now sid w Hdir)
    as (info & w1 & Hrun & Hdf & Hdir1).
  destruct (handle_sample_session_again now' sid w1 Hdir1)
    as (session & w2 & Hrun2 & Hjson & Hflag).
  exists w1, w2, session. split; [| split; [| exact Hflag]].
  - unfold get_session_info, get_session. rewrite sample_guard, Hs.
    unfold try_except, bind. rewrite Hrun.
    rewrite bool_decide_false; [reflexivity |].
    intros Hall. specialize (Hall "df" _ Hdf). discriminate.
  - unfold get_session_info, get_session. rewrite sample_guard, Hs.
    unfold try_except, bind. rewrite Hrun2.
    now rewrite (bool_decide_true _ Hjson).
Qed.

(** *** The upload route *)

Lemma not_empty_name (name : string) :
  name <> EmptyString -> String.eqb name EmptyString = false.
Proof. intros H. now apply String.eqb_neq. Qed.

(** X11: a file whose name passes [allowed_file] can still be refused as
    "Unsupported file format" (400): [allowed_file] compares the lower-cased
    extension of the name as sent, the reader is chosen by a case-sensitive
    test on the secured name. By then the session has been created and the
    upload has been written to the upload folder, and this answer leaves both
    behind: an empty session and the uploaded file. *)
Theorem refused_upload_leaves_session_and_file :
  forall (now : Z) (fresh_id name secured : string) (content : file)
         (excel : result DataFrame) (w : World),
    name <> EmptyString ->
    allowed_file name = true ->
    endswith ".csv" secured = false ->
    endswith ".xls" secured = false ->
    endswith ".xlsx" secured = false ->
    exists w',
      upload_dataset SESSION_FOLDER UPLOAD_FOLDER now fresh_id
        (Some (name, content)) secured excel w
      = (Ok (UploadBadRequest "Unsupported file format"), w')
      /\ files w' !! path_join UPLOAD_FOLDER secured = Some content
      /\ (store_accepts w ->
          persisted_metadata fresh_id w' = Some (created_metadata now)).
Proof.
  intros now fresh_id name secured content excel w Hname Hallowed Hcsv Hxls Hxlsx.
  unfold upload_dataset.
  rewrite (not_empty_name name Hname), Hallowed.
  destruct (create_session_spec SESSION_FOLDER now fresh_id w)
    as (w1 & ev & Hrun & _ & _ & _ & _ & Hacc & _).
  unfold bind at 1. rewrite Hrun.
  unfold bind at 1, write_file at 1. unfold try_except.
  rewrite Hcsv, Hxls, Hxlsx. cbn [orb]. unfold bind, ret.
  eexists. split; [reflexivity |]. cbn [files].
  split; [apply lookup_insert_eq |].
  intros H. destruct (Hacc H) as [Hpm _]. exact Hpm.
Qed.





End DatasetRouteFacts.

Section DatasetRouteExamples.
Import Py PyStr Fs Codec Mongo Disk DatasetRoutes.

(** X10, at the id "sample-1" in the empty world. *)
Lemma first_view_of_sample_witness :
  exists w1 w2 session,
    get_session_info "sessions" 0 "sample-1" empty_world
    = (Ok (SessionServerError
             "Error getting session info: Object of type DataFrame is not JSON serializable"),
       w1)
    /\ get_session_info "sessions" one_day "sample-1" w1
       = (Ok (SessionOk session), w2).
Proof.
  destruct (first_view_of_sample_session_fails "sessions" 0 one_day "sample-1"
              empty_world eq_refl)
    as (w1 & w2 & session & H1 & H2 & _).
  - vm_compute. reflexivity.
  - exists w1, w2, session. split; assumption.
Defined.

(** X11, at a file sent as "DATA.CSV". *)
Lemma refused_upload_witness :
  allowed_file "DATA.CSV" = true
  /\ exists w',
       upload_dataset "sessions" "uploads" 0 "u1"
         (Some ("DATA.CSV", CsvOf ["n"] [["1"]])) "DATA.CSV"
         (Raise (OtherError "not read")) empty_world
       = (Ok (UploadBadRequest "Unsupported file format"), w')
       /\ files w' !! "uploads/DATA.CSV" = Some (CsvOf ["n"] [["1"]])
       /\ persisted_metadata "u1" w' = Some (created_metadata 0).
Proof.
  split; [vm_compute; reflexivity |].
  destruct (refused_upload_leaves_session_and_file "sessions" "uploads" 0 "u1"
              "DATA.CSV" "DATA.CSV" (CsvOf ["n"] [["1"]])
              (Raise (OtherError "not read")) empty_world)
    as (w' & Hrun & Hfile & Hpm).
  - discriminate.
  - vm_compute. reflexivity.
  - reflexivity.
  - reflexivity.
  - reflexivity.
  - exists w'. split; [exact Hrun |]. split; [exact Hfile |].
    apply Hpm. left. discriminate.
Defined.


End DatasetRouteExamples.

(** * Facts about the natural-language pipeline *)

Section PipelineFacts.
Import Py Templates SqlSyntax Numeric Columns.

(** *** The query route *)


(** *** The conversion of text columns *)






(** *** The names of the loaded table *)







(** *** Names that occur inside a keyword *)

Lemma prefix_split a : forall b,
  String.prefix a b = true -> exists s, b = a +:+ s.
Proof.
  induction a as [|c a IH]; intros b H; [exists b; reflexivity |].
  destruct b as [|c' b]; [discriminate |].
  change (String.prefix (String c a) (String c' b))
    with (if ascii_dec c c' then String.prefix a b else false) in H.
  destruct (ascii_dec c c') as [-> |]; [| discriminate].
  destruct (IH b H) as [s ->]. exists s. reflexivity.
Qed.

Lemma contains_split a b :
  contains a b = true -> exists p s, b = p +:+ a +:+ s.
Proof.
  induction b as [|c b IH]; cbn [contains]; intros H.
  - rewrite orb_false_r in H. apply prefix_split in H as [s ->].
    exists EmptyString, s. reflexivity.
  - apply orb_prop in H as [H | H].
    + apply prefix_split in H as [s ->]. exists EmptyString, s. reflexivity.
    + destruct (IH H) as (p & s & ->). exists (String c p), s. reflexivity.
Qed.

Lemma contains_join p a s : contains a (p +:+ a +:+ s) = true.
Proof.
  induction p as [|c p IH].
  - change (EmptyString +:+ a +:+ s) with (a +:+ s).
    destruct (a +:+ s) eqn:E; cbn [contains]; rewrite <- E, prefix_app;
      reflexivity.
  - change (String c p +:+ a +:+ s) with (String c (p +:+ a +:+ s)).
    cbn [contains]. rewrite IH. apply orb_true_r.
Qed.

Lemma contains_trans a b c :
  contains a b = true -> contains b c = true -> contains a c = true.
Proof.
  intros Hab Hbc.
  apply contains_split in Hab as (p & s & ->).
  apply contains_split in Hbc as (p' & s' & ->).
  replace (p' +:+ (p +:+ a +:+ s) +:+ s')
    with ((p' +:+ p) +:+ a +:+ (s +:+ s'))
    by (now rewrite !append_assoc).
  apply contains_join.
Qed.

(** X16: in a request for an average the column averaged is the first
    column of the schema whose lower-cased name occurs anywhere in the
    request, the keyword included. So when the name of the first column
    occurs inside the word "average" (as "age" does), every request that
    contains that word gets the average of the first column, whatever column
    it asks for. *)
Theorem average_is_taken_of_a_name_inside_it :
  forall (self : SQLAssistant) (first : column_info) (rest : list column_info)
         (nl : string),
    schema self = Some (first :: rest) ->
    contains (lower (col_name first)) "average" = true ->
    contains "average" (strip (lower nl)) = true ->
    natural_language_to_sql self nl
    = Ok (select_avg (col_name first) (table_name self)).
Proof.
  intros self first rest nl Hsch Hname Hkey.
  unfold natural_language_to_sql. rewrite Hsch.
  set (q := strip (lower nl)) in *.
  assert (Hfind : find_column (map col_name (first :: rest)) q
                  = Some (col_name first)).
  { unfold find_column. cbn [map List.find].
    now rewrite (contains_trans _ _ _ Hname Hkey). }
  unfold keyword_rules. rewrite Hkey, Hfind. cbn [orb].
  assert (Ht : truthy (select_avg (col_name first) (table_name self)) = true)
    by reflexivity.
  rewrite Ht. cbn [negb].
  unfold age_rules, salary_rules. rewrite Ht. cbn [negb].
  rewrite !andb_false_r. reflexivity.
Qed.

(** *** The remote translation *)

(** X17: with a credential set, a connection open and a table of at least
    one column, whatever goes wrong with the remote service (the call raises,
    the status is not 200, the payload has no content to read) the remote
    translation returns what the rule-based matcher returns, a non-empty
    text; and an answer of status 200 is returned as it came, stripped of
    white space and code fences, without being checked against the schema.
    With a credential set and no connection open it returns [None]. *)
Theorem remote_failure_falls_back_to_matcher :
  forall (self : SQLAssistant) (nl : string) (reply : groq_reply),
    truthy (api_key self) = true ->
    (forall c sch,
       conn self = Some c -> schema self = Some sch -> sch <> [] ->
       (remote_failed reply = true ->
        exists text,
          natural_language_to_sql_with_groq self nl reply = Ok (Some text)
          /\ natural_language_to_sql self nl = Ok text
          /\ truthy text = true)
       /\ (forall content,
             reply = GroqResponse 200 (Some content) ->
             natural_language_to_sql_with_groq self nl reply
             = Ok (Some (strip_fence_close (strip_fence_open (strip content))))))
    /\ (conn self = None ->
        natural_language_to_sql_with_groq self nl reply = Ok None).
Proof.
  intros self nl reply Hkey. split.
  - intros c sch Hconn Hsch Hne.
    destruct (natural_language_to_sql_output self sch nl Hsch)
      as (text & Hrun & Hout).
    pose proof (matcher_output_truthy _ _ _ Hout) as Htext.
    unfold natural_language_to_sql_with_groq, get_schema.
    rewrite Hkey, Hconn, Hsch, Hrun. cbn [negb returning].
    destruct sch as [|col sch]; [contradiction |].
    split.
    + intros Hfail. exists text. split; [| split; [reflexivity | exact Htext]].
      destruct reply as [m | code content]; [reflexivity |].
      cbn [remote_failed] in Hfail.
      destruct (code =? 200)%Z; [| reflexivity].
      destruct content as [content|]; [discriminate | reflexivity].
    + intros content ->. reflexivity.
  - intros Hconn. unfold natural_language_to_sql_with_groq, get_schema.
    rewrite Hkey, Hconn. reflexivity.
Qed.

End PipelineFacts.

Section PipelineExamples.
Import Py Templates SqlSyntax Numeric Columns.

(** X16, at the sample dataset, whose first column is "age". *)
Lemma average_salary_witness :
  natural_language_to_sql sample_assistant "What is the average salary?"
  = Ok "SELECT AVG(age) as average_age FROM user_data".
Proof.
  apply (average_is_taken_of_a_name_inside_it sample_assistant
           (mkColumn "age" "INTEGER")
           (tl (default [] (schema sample_assistant)))).
  - reflexivity.
  - reflexivity.
  - vm_compute. reflexivity.
Defined.

(** X17, at the sample dataset with a credential and a service that answers
    with status 500. *)
Lemma remote_failure_witness :
  exists text,
    natural_language_to_sql_with_groq
      (connect_to_sqlite_memory (SQLAssistant_init "key") SAMPLE_DATA true).2
      "count the rows" (GroqResponse 500 None) = Ok (Some text)
    /\ natural_language_to_sql
         (connect_to_sqlite_memory (SQLAssistant_init "key") SAMPLE_DATA true).2
         "count the rows" = Ok text
    /\ truthy text = true.
Proof.
  destruct (remote_failure_falls_back_to_matcher
              (connect_to_sqlite_memory (SQLAssistant_init "key") SAMPLE_DATA
                 true).2
              "count the rows" (GroqResponse 500 None) eq_refl)
    as (Hconn & _).
  destruct (Hconn (mkConn (clean_columns SAMPLE_DATA))
              (table_info (clean_columns SAMPLE_DATA)) eq_refl eq_refl)
    as (Hfail & _).
  - discriminate.
  - apply Hfail. reflexivity.
Defined.

End PipelineExamples.
